(** * Enterprise catalog: indexability, projection and the task semaphore

    A shallow embedding of [enterprise_catalog/apps/catalog/algolia_utils.py]
    and of the task-level behaviour pinned down by
    [enterprise_catalog/apps/api/tests/test_tasks.py].

    Course records are JSON documents handled dynamically by the Python
    code, so they are embedded as an untyped value tree together with the
    exceptions the Python primitives raise on a value of the wrong shape. *)

From Stdlib Require Import ZArith String Ascii List Lia.
From stdpp Require Import base option list strings gmap sorting pretty.

Local Open Scope string_scope.
Local Open Scope list_scope.
#[local] Set Warnings "-register-all,-clear-no-such-hyp".

(** ** Python values, exceptions and primitives *)
Module Py.

(** The exceptions the embedded code can raise. *)
Inductive exn : Type :=
| TypeError
| AttributeError
| IndexError.

(** Outcome of a Python expression: a value or a raised exception. *)
Inductive result (A : Type) : Type :=
| Ok (a : A)
| Raise (e : exn).
Global Arguments Ok {A} a.
Global Arguments Raise {A} e.

Global Instance exn_eq_dec : EqDecision exn.
Proof. solve_decision. Defined.

Global Instance result_eq_dec {A} `{EqDecision A} : EqDecision (result A).
Proof. solve_decision. Defined.

Global Instance result_ret : MRet result := λ A x, Ok x.
Global Instance result_bind : MBind result := λ A B f m,
  match m with
  | Ok a => f a
  | Raise e => Raise e
  end.

Definition is_ok {A} (r : result A) : bool :=
  match r with Ok _ => true | Raise _ => false end.

(** JSON data as Python sees it.  Numbers are integers; a mapping keeps
    its entries in insertion order, one entry per key, and is read through
    the first entry of a key. *)
Inductive value : Type :=
| VNone
| VBool (b : bool)
| VInt (n : Z)
| VStr (s : string)
| VList (xs : list value)
| VDict (kvs : list (string * value)).

Global Instance value_inhabited : Inhabited value := populate VNone.

(** [bool(v)]: the truth value of an object. *)
Definition truthy (v : value) : bool :=
  match v with
  | VNone => false
  | VBool b => b
  | VInt n => negb (n =? 0)%Z
  | VStr s => negb (String.eqb s EmptyString)
  | VList xs => match xs with [] => false | _ => true end
  | VDict kvs => match kvs with [] => false | _ => true end
  end.

(** [a or b]. *)
Definition py_or (a b : value) : value := if truthy a then a else b.

(** [v is None]. *)
Definition is_none (v : value) : bool :=
  match v with VNone => true | _ => false end.

(** [isinstance(v, str)]. *)
Definition is_str (v : value) : bool :=
  match v with VStr _ => true | _ => false end.

Fixpoint assoc (k : string) (kvs : list (string * value)) : option value :=
  match kvs with
  | [] => None
  | (k', v) :: rest => if String.eqb k k' then Some v else assoc k rest
  end.

(** [d[k] = v] on a mapping: overwrite in place, or append a new entry. *)
Fixpoint dict_set (k : string) (v : value) (kvs : list (string * value))
  : list (string * value) :=
  match kvs with
  | [] => [(k, v)]
  | (k', v') :: rest =>
      if String.eqb k k' then (k', v) :: rest else (k', v') :: dict_set k v rest
  end.

(** [d.update(other)]. *)
Definition dict_update (kvs other : list (string * value)) : list (string * value) :=
  fold_left (λ acc kv, dict_set kv.1 kv.2 acc) other kvs.

(** [v.get(k, default)]: only a mapping has [get]. *)
Definition py_get_default (v : value) (k : string) (dflt : value) : result value :=
  match v with
  | VDict kvs => Ok (default dflt (assoc k kvs))
  | _ => Raise AttributeError
  end.

(** [v.get(k)]. *)
Definition py_get (v : value) (k : string) : result value :=
  py_get_default v k VNone.

Fixpoint chars (s : string) : list value :=
  match s with
  | EmptyString => []
  | String c rest => VStr (String c EmptyString) :: chars rest
  end.

(** [iter(v)]: a list yields its items, a mapping its keys, a string its
    characters; nothing else is iterable. *)
Definition py_iter (v : value) : result (list value) :=
  match v with
  | VList xs => Ok xs
  | VDict kvs => Ok (map (λ kv, VStr kv.1) kvs)
  | VStr s => Ok (chars s)
  | _ => Raise TypeError
  end.

(** [len(v)]. *)
Definition py_len (v : value) : result nat :=
  match v with
  | VList xs => Ok (length xs)
  | VDict kvs => Ok (length kvs)
  | VStr s => Ok (String.length s)
  | _ => Raise TypeError
  end.

(** [str.lower] on the letters A to Z.  Other characters are left as they
    are; none of them lowers to a letter of [current] or [upcoming], the
    only strings a lowered code is compared with. *)
Definition lower_ascii (c : ascii) : ascii :=
  let n := nat_of_ascii c in
  if (Nat.leb 65 n && Nat.leb n 90)%bool then ascii_of_nat (n + 32) else c.

Fixpoint lower (s : string) : string :=
  match s with
  | EmptyString => EmptyString
  | String c rest => String (lower_ascii c) (lower rest)
  end.

(** [v.lower()]: only a string has [lower]. *)
Definition py_lower (v : value) : result string :=
  match v with
  | VStr s => Ok (lower s)
  | _ => Raise AttributeError
  end.

(** [a == b].  [True] and [False] compare equal to [1] and [0]; mappings
    compare by entries, whatever their order. *)
Fixpoint py_eq (a b : value) : bool :=
  match a, b with
  | VNone, VNone => true
  | VBool x, VBool y => Bool.eqb x y
  | VBool x, VInt n | VInt n, VBool x => (n =? (if x then 1 else 0))%Z
  | VInt n, VInt m => (n =? m)%Z
  | VStr s, VStr t => String.eqb s t
  | VList xs, VList ys =>
      (fix go (xs ys : list value) : bool :=
         match xs, ys with
         | [], [] => true
         | x :: xs', y :: ys' => py_eq x y && go xs' ys'
         | _, _ => false
         end) xs ys
  | VDict d1, VDict d2 =>
      Nat.eqb (length d1) (length d2) &&
      (fix go (d : list (string * value)) : bool :=
         match d with
         | [] => true
         | (k, v) :: d' =>
             match assoc k d2 with
             | Some v' => py_eq v v' && go d'
             | None => false
             end
         end) d1
  | _, _ => false
  end.

(** The objects a [set] accepts.  [True] and [1] hash and compare alike, so
    a set holds one element for both; it is kept as the number. *)
Inductive hashable : Type :=
| HNone
| HNum (n : Z)
| HStr (s : string).

Global Instance hashable_eq_dec : EqDecision hashable.
Proof. solve_decision. Defined.

Global Instance hashable_countable : Countable hashable.
Proof.
  refine (inj_countable'
            (λ h, match h with
                  | HNone => inl ()
                  | HNum n => inr (inl n)
                  | HStr s => inr (inr s)
                  end)
            (λ x, match x with
                  | inl _ => HNone
                  | inr (inl n) => HNum n
                  | inr (inr s) => HStr s
                  end) _).
  by intros [].
Defined.

(** [hash(v)] succeeds on scalars and raises [TypeError] on lists and
    mappings. *)
Definition to_hashable (v : value) : result hashable :=
  match v with
  | VNone => Ok HNone
  | VBool b => Ok (HNum (if b then 1 else 0)%Z)
  | VInt n => Ok (HNum n)
  | VStr s => Ok (HStr s)
  | VList _ | VDict _ => Raise TypeError
  end.

Definition of_hashable (h : hashable) : value :=
  match h with
  | HNone => VNone
  | HNum n => VInt n
  | HStr s => VStr s
  end.

(** [list(s)] for a set [s]: its elements, each once, in an order the
    language leaves open. *)
Definition list_of_set (s : gset hashable) : list value :=
  of_hashable <$> elements s.

(** A [for] loop threading an accumulator; an exception in the body ends
    the loop. *)
Fixpoint for_each {A S : Type} (body : S → A → result S) (xs : list A) (s : S)
  : result S :=
  match xs with
  | [] => Ok s
  | x :: rest => s' ← body s x; for_each body rest s'
  end.

(** [[x for x in xs if p(x)]]. *)
Fixpoint filter_comp {A : Type} (p : A → result bool) (xs : list A)
  : result (list A) :=
  match xs with
  | [] => Ok []
  | x :: rest =>
      p x ≫= λ b : bool,
      filter_comp p rest ≫= λ ys,
      Ok (if b then x :: ys else ys)
  end.

(** [[f(x) for x in xs]]. *)
Fixpoint map_comp {A B : Type} (f : A → result B) (xs : list A)
  : result (list B) :=
  match xs with
  | [] => Ok []
  | x :: rest => f x ≫= λ y, map_comp f rest ≫= λ ys, Ok (y :: ys)
  end.

End Py.

(** ** [algolia_utils.py] *)
Module algolia_utils.
Import Py.

(** A [ContentMetadata] row, as far as the indexing code reads it. *)
Record ContentMetadata : Type := {
  content_key : string;
  json_metadata : value;
}.

Definition ALGOLIA_UUID_BATCH_SIZE : nat := 100.

Definition ALGOLIA_FIELDS : list string := [
  "additional_information";
  "availability";
  "card_image_url";
  "enterprise_catalog_uuids";
  "enterprise_catalog_query_uuids";
  "enterprise_customer_uuids";
  "full_description";
  "key";
  "language";
  "level_type";
  "objectID";
  "partners";
  "programs";
  "program_titles";
  "recent_enrollment_count";
  "short_description";
  "subjects";
  "skill_names";
  "skills";
  "title";
  "advertised_course_run"
].

(** [get_algolia_object_id(uuid)], on its documented domain: a string or
    [None]. *)
Definition get_algolia_object_id (uuid : option string) : option string :=
  match uuid with
  | Some u => if String.eqb u EmptyString then None else Some ("course-" +:+ u)
  | None => None
  end.

Definition DEFAULT_COURSE_AVAILABILITY : string := "Archived".

(** [COURSE_AVAILABILITY_MESSAGES.get(code, DEFAULT_COURSE_AVAILABILITY)]. *)
Definition COURSE_AVAILABILITY_MESSAGES_get (code : string) : string :=
  if String.eqb code "current" then "Available Now"
  else if String.eqb code "upcoming" then "Upcoming"
  else DEFAULT_COURSE_AVAILABILITY.

Section with_run_activity.

(** [is_course_run_active] is imported from [api.v1.utils]; the code below
    only relies on the truth value it returns for a run, or on the
    exception it raises. *)
Variable is_course_run_active : value → result bool.

(** [_get_course_run_by_uuid]: the first run whose uuid equals the given
    one; the [IndexError] of [[...][0]] on no match is caught and turned
    into [None]. *)
Definition _get_course_run_by_uuid (course course_run_uuid : value) : result value :=
  runs_v ← py_get_default course "course_runs" (VList []);
  runs ← py_iter runs_v;
  matching ← filter_comp
               (λ run, u ← py_get run "uuid"; mret (py_eq u course_run_uuid))
               runs;
  match matching with
  | [] => mret VNone
  | course_run :: _ => mret course_run
  end.

Definition _should_index_course (course_metadata : ContentMetadata) : result bool :=
  let course_json_metadata := json_metadata course_metadata in
  advertised_course_run_uuid ← py_get course_json_metadata "advertised_course_run_uuid";
  advertised_course_run ←
    _get_course_run_by_uuid course_json_metadata advertised_course_run_uuid;
  if is_none advertised_course_run then mret false else
  active ← is_course_run_active advertised_course_run;
  if negb active then mret false else
  owners_v ← py_get course_json_metadata "owners";
  let owners := py_or owners_v (VList []) in
  hidden ← py_get advertised_course_run "hidden";
  if truthy hidden then mret false else
  n ← py_len owners;
  mret (Nat.ltb 0 n).

(** The two sets are built side by side; [list(set)] lists each key once. *)
Definition partition_course_keys_for_indexing
    (courses_content_metadata : list ContentMetadata)
  : result (list string * list string) :=
  sets ← for_each
    (λ (acc : gset string * gset string) course_metadata,
       b ← _should_index_course course_metadata;
       mret (if b : bool
             then ({[ content_key course_metadata ]} ∪ acc.1, acc.2)
             else (acc.1, {[ content_key course_metadata ]} ∪ acc.2)))
    courses_content_metadata (∅, ∅);
  mret (elements sets.1, elements sets.2).

Definition get_course_language (course : value) : result value :=
  uuid ← py_get course "advertised_course_run_uuid";
  advertised_course_run ← _get_course_run_by_uuid course uuid;
  if negb (truthy advertised_course_run) then mret VNone else
  py_get advertised_course_run "content_language_search_facet_name".

Definition get_course_availability (course : value) : result (list string) :=
  runs_v ← py_get course "course_runs";
  course_runs ← py_iter (py_or runs_v (VList []));
  active_course_runs ← filter_comp is_course_run_active course_runs;
  availability ← for_each
    (λ (acc : gset string) course_run,
       a ← py_get course_run "availability";
       code ← py_lower (py_or a (VStr EmptyString));
       mret ({[ COURSE_AVAILABILITY_MESSAGES_get code ]} ∪ acc))
    active_course_runs ∅;
  mret (elements availability).

Definition get_course_partners (course : value) : result (list value) :=
  owners_v ← py_get course "owners";
  owners ← py_iter (py_or owners_v (VList []));
  for_each
    (λ (partners : list value) owner,
       partner_name ← py_get owner "name";
       if truthy partner_name then
         logo ← py_get owner "logo_image_url";
         mret (partners ++
               [VDict [("name", partner_name); ("logo_image_url", logo)]])
       else mret partners)
    owners [].

Definition _get_course_program_field (course : value) (field : string)
  : result (list value) :=
  programs_v ← py_get course "programs";
  programs ← py_iter (py_or programs_v (VList []));
  values ← for_each
    (λ (acc : gset hashable) program,
       v ← py_get program field;
       if truthy v then h ← to_hashable v; mret ({[ h ]} ∪ acc) else mret acc)
    programs ∅;
  mret (list_of_set values).

Definition get_course_program_types (course : value) : result (list value) :=
  _get_course_program_field course "type".

Definition get_course_program_titles (course : value) : result (list value) :=
  _get_course_program_field course "title".

Definition get_course_subjects (course : value) : result (list value) :=
  subjects_v ← py_get course "subjects";
  subjects ← py_iter (py_or subjects_v (VList []));
  subject_names ← for_each
    (λ (acc : gset hashable) subject,
       if is_str subject then
         h ← to_hashable subject; mret ({[ h ]} ∪ acc)
       else
         subject_name ← py_get subject "name";
         if truthy subject_name
         then h ← to_hashable subject_name; mret ({[ h ]} ∪ acc)
         else mret acc)
    subjects ∅;
  mret (list_of_set subject_names).

Definition get_course_card_image_url (course : value) : result value :=
  py_get course "image_url".

Definition get_course_skill_names (course : value) : result (list value) :=
  skill_names_v ← py_get course "skill_names";
  skill_names ← py_iter (py_or skill_names_v (VList []));
  names ← for_each
    (λ (acc : gset hashable) name, h ← to_hashable name; mret ({[ h ]} ∪ acc))
    skill_names ∅;
  mret (list_of_set names).

Definition get_course_skills (course : value) : result (list value) :=
  skills_v ← py_get course "skills";
  py_iter (py_or skills_v (VList [])).

Definition get_advertised_course_run (course : value) : result value :=
  uuid ← py_get course "advertised_course_run_uuid";
  full_course_run ← _get_course_run_by_uuid course uuid;
  if is_none full_course_run then mret VNone else
  key ← py_get full_course_run "key";
  pacing_type ← py_get full_course_run "pacing_type";
  start ← py_get full_course_run "start";
  end_ ← py_get full_course_run "end";
  mret (VDict [("key", key); ("pacing_type", pacing_type);
               ("start", start); ("end", end_)]).

(** *** Objects in the store

    [_algolia_object_from_course] receives a reference to the caller's
    course mapping and updates a mapping in place, so it is embedded over
    an explicit store of objects.  The functions above only read the
    mapping they are given and take its content. *)

Definition loc : Type := nat.

(** A computation over the store; an exception leaves the store as it was
    when raised. *)
Definition St (A : Type) : Type := gmap loc value → result A * gmap loc value.

Global Instance St_ret : MRet St := λ A x h, (Ok x, h).
Global Instance St_bind : MBind St := λ A B f m h,
  match m h with
  | (Ok a, h') => f a h'
  | (Raise e, h') => (Raise e, h')
  end.

Definition lift {A} (r : result A) : St A := λ h, (r, h).

(** The object a reference designates. *)
Definition load (l : loc) : St value := λ h, (Ok (h !!! l), h).

(** [copy.deepcopy(l)]: a new object with the same content, at a location
    not in use. *)
Definition deepcopy (l : loc) : St loc := λ h,
  let l' := fresh (dom h) in (Ok l', <[l' := h !!! l]> h).

(** [l.update(other)], in place. *)
Definition update (l : loc) (other : list (string * value)) : St () := λ h,
  match h !!! l with
  | VDict kvs => (Ok (), <[l := VDict (dict_update kvs other)]> h)
  | _ => (Raise AttributeError, h)
  end.

Definition _algolia_object_from_course (course : loc) (algolia_fields : list string)
  : St value :=
  searchable_course ← deepcopy course;
  c ← load searchable_course;
  language ← lift (get_course_language c);
  availability ← lift (get_course_availability c);
  partners ← lift (get_course_partners c);
  programs ← lift (get_course_program_types c);
  program_titles ← lift (get_course_program_titles c);
  subjects ← lift (get_course_subjects c);
  card_image_url ← lift (get_course_card_image_url c);
  advertised_course_run ← lift (get_advertised_course_run c);
  skill_names ← lift (get_course_skill_names c);
  skills ← lift (get_course_skills c);
  update searchable_course [
    ("language", language);
    ("availability", VList (VStr <$> availability));
    ("partners", VList partners);
    ("programs", VList programs);
    ("program_titles", VList program_titles);
    ("subjects", VList subjects);
    ("card_image_url", card_image_url);
    ("advertised_course_run", advertised_course_run);
    ("skill_names", VList skill_names);
    ("skills", VList skills)
  ];;
  c' ← load searchable_course;
  algolia_object ← lift (for_each
    (λ (acc : list (string * value)) field,
       field_value ← py_get c' field;
       mret (if is_none field_value then acc else dict_set field field_value acc))
    algolia_fields []);
  mret (VDict algolia_object).

Fixpoint st_map_comp {A B : Type} (f : A → St B) (xs : list A) : St (list B) :=
  match xs with
  | [] => mret []
  | x :: rest => y ← f x; ys ← st_map_comp f rest; mret (y :: ys)
  end.

(** [algolia_fields] may be [None]. *)
Definition create_algolia_objects_from_courses
    (courses : list loc) (algolia_fields : option (list string))
  : St (list value) :=
  let algolia_fields := default [] algolia_fields in
  st_map_comp (λ course, _algolia_object_from_course course algolia_fields) courses.

End with_run_activity.
End algolia_utils.

(** ** [tasks.py] *)
Module tasks.
Import Py algolia_utils.

(** *** The expiring task semaphore *)

(** The task states the result store records. *)
Inductive state : Type :=
| PENDING
| STARTED
| RETRY
| SUCCESS
| FAILURE
| REVOKED.

Global Instance state_eq_dec : EqDecision state.
Proof. solve_decision. Defined.

(** [states.UNREADY_STATES] and [states.READY_STATES]. *)
Definition UNREADY_STATES : list state := [PENDING; STARTED; RETRY].
Definition READY_STATES : list state := [SUCCESS; FAILURE; REVOKED].

(** A [TaskResult] row.  Arguments are held in serialized form, as the
    store holds them; times are in seconds. *)
Record TaskResult : Type := {
  task_name : string;
  task_args : string;
  task_kwargs : string;
  status : state;
  task_id : string;
  date_created : Z;
}.

(** The bound task object a wrapped task receives as [self]: its name and
    the id, args and kwargs of the request being executed (serialized). *)
Record BoundTask : Type := {
  name : string;
  request_id : string;
  request_args : string;
  request_kwargs : string;
}.

Definition ONE_HOUR : Z := 3600%Z.

(** Modelled from the spec: [unready_tasks] of [tasks.py], which is not
    among the sources.  Step 1 of §4.1 without the exclusion of the own
    record: the rows with the task's name, an unready status and a creation
    time within the window ending now; this is also what
    [test_unready_tasks_*] exercise. *)
Definition unready_tasks (store : list TaskResult) (now : Z)
    (celery_task_name : string) (time_delta : Z) : list TaskResult :=
  filter (λ r, bool_decide (task_name r = celery_task_name
                            ∧ (now - time_delta ≤ date_created r)%Z
                            ∧ status r ∈ UNREADY_STATES)) store.

(** The states of an earlier run that does not count as an equivalent
    execution. *)
Definition DISCARDED_STATES : list state := [FAILURE; REVOKED].

(** Modelled from the spec: [task_recently_run] of [tasks.py], which is
    not among the sources.  Steps 1 to 3 of §4.1: a row with the task's
    name, created within the window ending now, not the row of this very
    execution, with serialized args and kwargs equal to the request's.
    The status filter follows [TestTaskResultFunctions] instead of the
    wording of step 1: the row of [setUp] has status [SUCCESS] and must
    raise the error ([test_semaphore_raises_recent_run_error_for_same_args],
    [..._same_kwargs]), while [FAILURE] and [REVOKED] rows are ignored
    ([test_failed_or_revoked_tasks_are_ignored_by_semaphore]). *)
Definition task_recently_run (store : list TaskResult) (now : Z)
    (task_object : BoundTask) (time_delta : Z) : bool :=
  bool_decide (Exists (λ r,
    task_name r = name task_object
    ∧ task_args r = request_args task_object
    ∧ task_kwargs r = request_kwargs task_object
    ∧ (now - time_delta ≤ date_created r)%Z
    ∧ (status r ∉ DISCARDED_STATES)
    ∧ task_id r ≠ request_id task_object) store).

(** The same check with the status filter worded as step 1 of §4.1 has it:
    only unready rows are looked at. *)
Definition task_recently_run_as_worded (store : list TaskResult) (now : Z)
    (task_object : BoundTask) (time_delta : Z) : bool :=
  bool_decide (Exists (λ r,
    task_args r = request_args task_object
    ∧ task_kwargs r = request_kwargs task_object
    ∧ task_id r ≠ request_id task_object)
    (unready_tasks store now (name task_object) time_delta)).

(** What a wrapped task does: return the result of the work, or raise. *)
Inductive outcome (A : Type) : Type :=
| Returned (a : A)
| TaskRecentlyRunError (task_name args kwargs : string).
Global Arguments Returned {A} a.
Global Arguments TaskRecentlyRunError {A} task_name args kwargs.

(** Modelled from the spec: the decorator [expiring_task_semaphore] of
    [tasks.py], which is not among the sources.  Steps 3 and 4 of §4.1:
    raise when an equivalent execution is recorded, else run the wrapped
    work and hand its result back; the window defaults to one hour. *)
Definition expiring_task_semaphore {A : Type} (time_delta : option Z)
    (task : BoundTask → A)
    (store : list TaskResult) (now : Z) (self : BoundTask) : outcome A :=
  let delta := default ONE_HOUR time_delta in
  if task_recently_run store now self delta
  then TaskRecentlyRunError (name self) (request_args self) (request_kwargs self)
  else Returned (task self).

(** *** Indexing courses in Algolia *)

(** The three kinds of association a course carries. *)
Inductive kind : Type :=
| Catalog
| Customer
| CatalogQuery.

Definition kind_name (k : kind) : string :=
  match k with
  | Catalog => "catalog"
  | Customer => "customer"
  | CatalogQuery => "catalog-query"
  end.

Definition kind_field (k : kind) : string :=
  match k with
  | Catalog => "enterprise_catalog_uuids"
  | Customer => "enterprise_customer_uuids"
  | CatalogQuery => "enterprise_catalog_query_uuids"
  end.

(** The UUIDs associated with one course, united over the catalogs that
    contain it. *)
Record AssociationSet : Type := {
  catalog_uuids : gset string;
  customer_uuids : gset string;
  catalog_query_uuids : gset string;
}.

Definition uuids_of (k : kind) (a : AssociationSet) : gset string :=
  match k with
  | Catalog => catalog_uuids a
  | Customer => customer_uuids a
  | CatalogQuery => catalog_query_uuids a
  end.

Fixpoint batch_go {A : Type} (fuel batch_size : nat) (l : list A) : list (list A) :=
  match fuel with
  | O => []
  | S fuel' =>
      match l with
      | [] => []
      | _ => take batch_size l :: batch_go fuel' batch_size (drop batch_size l)
      end
  end.

(** Modelled from the spec: the chunking helper used by [tasks.py], which
    is not among the sources: consecutive groups of at most [batch_size]
    items (§4.3).  One round per item is enough. *)
Definition batch {A : Type} (batch_size : nat) (l : list A) : list (list A) :=
  batch_go (length l) batch_size l.

(** [sorted(uuids)]: strings in lexicographic order, character by
    character. *)
Definition sorted (uuids : gset string) : list string :=
  merge_sort String.le (elements uuids).

(** ['{}-{}-uuids-{}'.format(object_id, kind, batch_index)]. *)
Definition batch_object_id (object_id : string) (k : kind) (batch_index : nat) : string :=
  object_id +:+ "-" +:+ kind_name k +:+ "-uuids-" +:+ pretty batch_index.

(** Modelled from the spec: the batched fan-out of [tasks.py], which is not
    among the sources (§4.3): one object per group of the sorted UUIDs of
    a kind, holding the identifier, the content key and that one
    association field, as the objects expected by
    [test_index_algolia_with_batched_uuids] do. *)
Definition _batched_metadata (object_id key : string) (k : kind)
    (batch_size : nat) (uuids : gset string) : list value :=
  imap (λ batch_index uuid_batch,
          VDict [("key", VStr key);
                 ("objectID", VStr (batch_object_id object_id k batch_index));
                 (kind_field k, VList (VStr <$> uuid_batch))])
       (batch batch_size (sorted uuids)).

(** The [uuid] entry of the course document, when it is a string. *)
Definition course_uuid (course_metadata : ContentMetadata) : option string :=
  match json_metadata course_metadata with
  | VDict kvs =>
      match assoc "uuid" kvs with
      | Some (VStr u) => Some u
      | _ => None
      end
  | _ => None
  end.

(** Modelled from the spec: the objects of one course (§4.3), kind after
    kind.  The identifier starts from [get_algolia_object_id] of the
    course's own [uuid] entry, which is what
    [test_index_algolia_with_all_uuids] reads back
    ([json_metadata.get('uuid')]) and what the docstring of
    [get_algolia_object_id] announces ("a course uuid"); [format] prints a
    missing identifier as [None]. *)
Definition course_objects (batch_size : nat) (course_metadata : ContentMetadata)
    (associations : AssociationSet) : list value :=
  let object_id :=
    default "None" (get_algolia_object_id (course_uuid course_metadata)) in
  let key := content_key course_metadata in
  (_batched_metadata object_id key Catalog batch_size (uuids_of Catalog associations)
   ++ _batched_metadata object_id key Customer batch_size (uuids_of Customer associations)
   ++ _batched_metadata object_id key CatalogQuery batch_size
        (uuids_of CatalogQuery associations))%list.

(** What a reindexing cycle acts upon: the cache of recently indexed
    content keys (no entry expires during the cycles considered), and the
    calls observed on the cache predicate and on the search client. *)
Record Env : Type := {
  recently_indexed : gset string;
  was_recently_indexed_calls : list string;
  replace_all_objects_calls : list (list value);
}.

Section with_collaborators.

Variable is_course_run_active : value → result bool.

(** The catalog membership provider: the associations of a content key. *)
Variable associations_of : string → AssociationSet.

Variable batch_size : nat.

(** One indexable course of the cycle: ask the cache; skip the course if it
    is there, else emit its objects and mark it. *)
Definition index_course (acc : list value * Env) (course_metadata : ContentMetadata)
  : list value * Env :=
  let '(objects, env) := acc in
  let key := content_key course_metadata in
  let calls := (was_recently_indexed_calls env ++ [key])%list in
  if bool_decide (key ∈ recently_indexed env) then
    (objects,
     {| recently_indexed := recently_indexed env;
        was_recently_indexed_calls := calls;
        replace_all_objects_calls := replace_all_objects_calls env |})
  else
    ((objects ++ course_objects batch_size course_metadata (associations_of key))%list,
     {| recently_indexed := {[ key ]} ∪ recently_indexed env;
        was_recently_indexed_calls := calls;
        replace_all_objects_calls := replace_all_objects_calls env |}).

(** Modelled from the spec: [index_enterprise_catalog_courses_in_algolia_task]
    of [tasks.py], which is not among the sources (§4.4): partition the
    fetched courses, run through the indexable ones, and hand the aggregate
    to [replace_all_objects] in a single call. *)
Definition index_enterprise_catalog_courses_in_algolia_task
    (courses : list ContentMetadata) (env : Env) : result Env :=
  keys ← partition_course_keys_for_indexing is_course_run_active courses;
  let indexable := filter (λ c, bool_decide (content_key c ∈ keys.1)) courses in
  let '(objects, env') := fold_left index_course indexable ([], env) in
  mret {| recently_indexed := recently_indexed env';
          was_recently_indexed_calls := was_recently_indexed_calls env';
          replace_all_objects_calls :=
            (replace_all_objects_calls env' ++ [objects])%list |}.

End with_collaborators.
End tasks.

(** ** Data of the test suites *)
Module fixtures.
Import Py algolia_utils tasks.

(** A run-activity predicate to run the examples with, in line with the
    table of [test_should_index_course]: a run is active when it is
    published, enrollable and marketable. *)
Definition published_enrollable_marketable (run : value) : result bool :=
  run_status ← py_get run "status";
  code ← py_lower (py_or run_status (VStr EmptyString));
  enrollable ← py_get_default run "is_enrollable" (VBool false);
  marketable ← py_get_default run "is_marketable" (VBool false);
  mret (String.eqb code "published" && truthy enrollable && truthy marketable).

(** The course document of [test_should_index_course], by its six knobs. *)
Definition should_index_case
    (has_advertised_course_run has_owners advertised_course_run_hidden : bool)
    (advertised_course_run_status : string)
    (is_enrollable is_marketable : bool) : ContentMetadata :=
  {| content_key := "course+key";
     json_metadata := VDict [
       ("advertised_course_run_uuid", VStr "uuid-advertised");
       ("course_runs", VList [VDict [
          ("hidden", VBool advertised_course_run_hidden);
          ("uuid", VStr (if has_advertised_course_run
                         then "uuid-advertised" else "uuid-other"));
          ("status", VStr advertised_course_run_status);
          ("is_enrollable", VBool is_enrollable);
          ("is_marketable", VBool is_marketable)]]);
       ("owners", VList (if has_owners then [VDict [("name", VStr "edX")]] else []))
     ] |}.

(** Two records with one content key, the first indexable and the second
    without owners. *)
Definition conflicting_records : list ContentMetadata :=
  [should_index_case true true false "published" true true;
   should_index_case true false false "published" true true].

(** A record whose [course_runs] entry is [None]. *)
Definition null_course_runs : ContentMetadata :=
  {| content_key := "course+null";
     json_metadata := VDict [("course_runs", VNone)] |}.

(** A record whose [course_runs] holds a number instead of a run. *)
Definition numeric_course_run : ContentMetadata :=
  {| content_key := "course+number";
     json_metadata := VDict [("course_runs", VList [VInt 5])] |}.

(** A course document without a [course_runs] entry. *)
Definition no_course_runs : ContentMetadata :=
  {| content_key := "course+bare";
     json_metadata := VDict [("owners", VList [VDict [("name", VStr "edX")]])] |}.

(** A course document one of whose subjects is a number. *)
Definition numeric_subject : value :=
  VDict [("key", VStr "course+subject"); ("subjects", VList [VInt 5])].

(** A store holding that document and a well-formed one. *)
Definition two_courses : gmap loc value :=
  {[ 0 := numeric_subject;
     1 := json_metadata (should_index_case true true false "published" true true) ]}.

(** A course document with one run of the given availability code. *)
Definition availability_case (code : value) : value :=
  VDict [("course_runs", VList [VDict [
    ("status", VStr "published");
    ("is_enrollable", VBool true);
    ("is_marketable", VBool true);
    ("availability", code)]])].

(** [setUp] of [TestTaskResultFunctions]: one row, for some other
    execution of [mock_task], with status [SUCCESS], created now. *)
Definition now : Z := 1000000%Z.
Definition mock_task_id : string := "mock-task-id".
Definition other_task_id : string := "other-task-id".
Definition test_args : string := "[123, 77]".
Definition dquote : string := String "034"%char EmptyString.
Definition test_kwargs : string :=
  "{" +:+ dquote +:+ "foo" +:+ dquote +:+ ": "
      +:+ dquote +:+ "bar" +:+ dquote +:+ "}".

Definition mock_task_result : TaskResult :=
  {| task_name := "mock_task";
     task_args := test_args;
     task_kwargs := test_kwargs;
     status := SUCCESS;
     task_id := other_task_id;
     date_created := now |}.

(** [mock_task_instance]: the bound task of a call with the given
    serialized args and kwargs. *)
Definition bound_task_object (args kwargs : string) : BoundTask :=
  {| name := "mock_task";
     request_id := mock_task_id;
     request_args := args;
     request_kwargs := kwargs |}.

(** The row of [setUp] with some of its columns changed, as the tests do
    before saving it again. *)
Definition saved_with (kwargs : string) (s : state) (id : string) (created : Z)
  : TaskResult :=
  {| task_name := task_name mock_task_result;
     task_args := task_args mock_task_result;
     task_kwargs := kwargs;
     status := s;
     task_id := id;
     date_created := created |}.

(** A published course whose own uuid differs from the uuid of its
    advertised run, in two catalogs of two customers. *)
Definition published_course : ContentMetadata :=
  {| content_key := "fakeX";
     json_metadata := VDict [
       ("key", VStr "fakeX");
       ("uuid", VStr "course-uuid");
       ("advertised_course_run_uuid", VStr "run-uuid");
       ("course_runs", VList [VDict [
          ("uuid", VStr "run-uuid");
          ("status", VStr "published");
          ("is_enrollable", VBool true);
          ("is_marketable", VBool true)]]);
       ("owners", VList [VDict [("name", VStr "edX")]])
     ] |}.

(** The unpublished course of the same tests. *)
Definition unpublished_course : ContentMetadata :=
  {| content_key := "testX";
     json_metadata := VDict [
       ("key", VStr "testX");
       ("uuid", VStr "other-course-uuid");
       ("advertised_course_run_uuid", VStr "other-run-uuid");
       ("course_runs", VList [VDict [
          ("uuid", VStr "other-run-uuid");
          ("status", VStr "unpublished");
          ("is_enrollable", VBool true);
          ("is_marketable", VBool true)]]);
       ("owners", VList [VDict [("name", VStr "edX")]])
     ] |}.

Definition memberships (key : string) : AssociationSet :=
  {| catalog_uuids := {[ "catalog-2"; "catalog-1" ]};
     customer_uuids := {[ "customer-2"; "customer-1" ]};
     catalog_query_uuids := {[ "query-2"; "query-1" ]} |}.

(** The state before the first cycle: nothing indexed recently, no call
    observed. *)
Definition initial_env : Env :=
  {| recently_indexed := ∅;
     was_recently_indexed_calls := [];
     replace_all_objects_calls := [] |}.

Inductive precious : Type := COMPUTED_PRECIOUS_OBJECT.

Definition mock_task (self : BoundTask) : precious := COMPUTED_PRECIOUS_OBJECT.

(** A course with a title, a stale [language] entry and a field that is
    not searchable. *)
Definition titled_document : list (string * value) :=
  [("title", VStr "Intro to Knots");
   ("key", VStr "edX+Knots");
   ("language", VStr "stale");
   ("internal_notes", VStr "not for search");
   ("advertised_course_run_uuid", VStr "run-1");
   ("course_runs", VList [VDict [
      ("uuid", VStr "run-1");
      ("key", VStr "course-v1:edX+Knots+1");
      ("status", VStr "published");
      ("is_enrollable", VBool true);
      ("is_marketable", VBool true);
      ("availability", VStr "Current")]]);
   ("owners", VList [VDict [("name", VStr "edX")]])].

Definition titled_course : value := VDict titled_document.

Definition catalogue : gmap loc value := {[ 7 := titled_course ]}.

(** The object of [titled_course] for [ALGOLIA_FIELDS]. *)
Definition titled_object : value :=
  VDict [("availability", VList [VStr "Available Now"]);
         ("key", VStr "edX+Knots");
         ("partners",
          VList [VDict [("name", VStr "edX"); ("logo_image_url", VNone)]]);
         ("programs", VList []);
         ("program_titles", VList []);
         ("subjects", VList []);
         ("skill_names", VList []);
         ("skills", VList []);
         ("title", VStr "Intro to Knots");
         ("advertised_course_run",
          VDict [("key", VStr "course-v1:edX+Knots+1");
                 ("pacing_type", VNone); ("start", VNone); ("end", VNone)])].

End fixtures.


(** ** The vocabulary of the specification *)
Module contract.
Import Py algolia_utils tasks.

(** The entry of a mapping under a key; [None] when there is none. *)
Definition field (v : value) (k : string) : value :=
  match v with
  | VDict kvs => default VNone (assoc k kvs)
  | _ => VNone
  end.

Definition is_dict (v : value) : Prop := ∃ kvs, v = VDict kvs.

(** The uuid of [run] equals [uuid]. *)
Definition has_uuid (uuid run : value) : Prop :=
  py_eq (field run "uuid") uuid = true.

Global Instance has_uuid_dec uuid run : Decision (has_uuid uuid run).
Proof. unfold has_uuid. apply _. Defined.

(** The runs of a course document, in order, each of them a mapping. *)
Definition course_runs_are (course : value) (runs : list value) : Prop :=
  ∃ doc,
    course = VDict doc
    ∧ py_iter (default (VList []) (assoc "course_runs" doc)) = Ok runs
    ∧ Forall is_dict runs.

(** [run] is the advertised run of the course: the first of its runs whose
    uuid is the advertised one. *)
Definition advertised_run (course run : value) : Prop :=
  ∃ before after,
    course_runs_are course (before ++ run :: after)
    ∧ has_uuid (field course "advertised_course_run_uuid") run
    ∧ Forall (λ r, ¬ has_uuid (field course "advertised_course_run_uuid") r) before.

(** No run of the course has the advertised uuid. *)
Definition no_advertised_run (course : value) : Prop :=
  ∃ runs,
    course_runs_are course runs
    ∧ Forall (λ r, ¬ has_uuid (field course "advertised_course_run_uuid") r) runs.

(** A collection with at least one item. *)
Definition nonempty (v : value) : Prop :=
  match v with
  | VList (_ :: _) | VDict (_ :: _) | VStr (String _ _) => True
  | _ => False
  end.

(** The label of a raw availability code: the fixed table on the
    lowercased code, [Archived] for any other code and for no code. *)
Definition availability_label (raw : value) : string :=
  match raw with
  | VStr code =>
      if decide (lower code = "current") then "Available Now"
      else if decide (lower code = "upcoming") then "Upcoming"
      else "Archived"
  | _ => "Archived"
  end.

(** A raw availability code as the documents carry it: a string, or a
    blank.  *)
Definition availability_code (raw : value) : Prop :=
  is_str raw = true ∨ truthy raw = false.

(** One subject of a course, in either of its two representations. *)
Definition subject_as_string (s : string) : value := VStr s.
Definition subject_as_mapping (s : string) (others : list (string * value)) : value :=
  VDict (("name", VStr s) :: others).

(** [a] and [b] represent the same named subject. *)
Inductive same_subject : value → value → Prop :=
| same_subject_intro s a b :
    s ≠ EmptyString →
    (a = VStr s ∨ ∃ d, a = VDict d ∧ assoc "name" d = Some (VStr s)) →
    (b = VStr s ∨ ∃ d, b = VDict d ∧ assoc "name" d = Some (VStr s)) →
    same_subject a b.

(** A subjects entry of one of the two documented shapes: a string, or a
    mapping whose name is a string or blank. *)
Definition subject_entry (v : value) : Prop :=
  is_str v = true
  ∨ (is_dict v
     ∧ (is_str (field v "name") = true ∨ truthy (field v "name") = false)).

(** A computation over the store writes at most the object at [l]. *)
Definition writes_only {A} (l : loc) (m : St A) : Prop :=
  ∀ h l', l' ≠ l → (m h).2 !! l' = h !! l'.

(** An earlier run that stands in the way of the execution [self] at
    time [now], for the window [delta]: same task name, a status other
    than [FAILURE] and [REVOKED], created within the window, equal
    serialized args and kwargs, and another execution id. *)
Definition equivalent_run (now delta : Z) (self : BoundTask) (r : TaskResult) : Prop :=
  task_name r = name self
  ∧ (status r ∉ DISCARDED_STATES)
  ∧ (now - delta ≤ date_created r)%Z
  ∧ task_args r = request_args self
  ∧ task_kwargs r = request_kwargs self
  ∧ task_id r ≠ request_id self.

(** A row with one column changed. *)
Definition with_status (r : TaskResult) (s : state) : TaskResult :=
  {| task_name := task_name r; task_args := task_args r;
     task_kwargs := task_kwargs r; status := s;
     task_id := task_id r; date_created := date_created r |}.

Definition with_date_created (r : TaskResult) (t : Z) : TaskResult :=
  {| task_name := task_name r; task_args := task_args r;
     task_kwargs := task_kwargs r; status := status r;
     task_id := task_id r; date_created := t |}.

Definition with_arguments (r : TaskResult) (args kwargs : string) : TaskResult :=
  {| task_name := task_name r; task_args := args;
     task_kwargs := kwargs; status := status r;
     task_id := task_id r; date_created := date_created r |}.

Definition with_task_id (r : TaskResult) (id : string) : TaskResult :=
  {| task_name := task_name r; task_args := task_args r;
     task_kwargs := task_kwargs r; status := status r;
     task_id := id; date_created := date_created r |}.

(** [n] items in groups of [b]: the number of groups. *)
Definition div_ceil (n b : nat) : nat := (n + b - 1) `div` b.

(** [k] is the content key of a record of [l] on which the indexability
    check, run with the given activity predicate, answers [b]. *)
Definition classified (is_course_run_active : value → result bool)
    (l : list ContentMetadata) (b : bool) (k : string) : Prop :=
  ∃ c, c ∈ l ∧ content_key c = k
       ∧ _should_index_course is_course_run_active c = Ok b.

(** An object carries an association field. *)
Definition populated (obj : value) (k : kind) : Prop :=
  field obj (kind_field k) ≠ VNone.

End contract.

(** ** The vocabulary of the derived fields *)
Module derived.
Import Py algolia_utils contract.

(** The fields [_algolia_object_from_course] computes and writes over the
    entries of the same name. *)
Definition DERIVED_FIELDS : list string := [
  "language"; "availability"; "partners"; "programs"; "program_titles";
  "subjects"; "card_image_url"; "advertised_course_run"; "skill_names";
  "skills"
].

(** The labels the availability facet can take. *)
Definition AVAILABILITY_LABELS : list string :=
  ["Available Now"; "Upcoming"; "Archived"].

(** What is kept of an owner: its name and its logo. *)
Definition partner_of (owner : value) : value :=
  VDict [("name", field owner "name");
         ("logo_image_url", field owner "logo_image_url")].

(** What is kept of the advertised run. *)
Definition advertised_subset (run : value) : value :=
  VDict [("key", field run "key");
         ("pacing_type", field run "pacing_type");
         ("start", field run "start");
         ("end", field run "end")].

(** The keys of a mapping. *)
Definition keys (kvs : list (string * value)) : list string := kvs.*1.

(** A mapping holds one entry per key. *)
Definition well_formed (kvs : list (string * value)) : Prop := NoDup (keys kvs).

(** A text field of a program: a string, or nothing. *)
Definition text_or_none (v : value) : Prop := is_str v = true ∨ v = VNone.

(** The entries of [searchable] under the names of [fields], those that
    are [None] left out. *)
Definition pick (searchable : list (string * value)) (fields : list string)
  : list (string * value) :=
  fold_left
    (λ acc f, let v := field (VDict searchable) f in
              if is_none v then acc else dict_set f v acc)
    fields [].

(** The derived fields whose getter returns a list. *)
Definition LISTED_FIELDS : list string :=
  ["availability"; "partners"; "programs"; "program_titles"; "subjects";
   "skill_names"; "skills"].

(** The entries [_algolia_object_from_course] writes over the copy. *)
Definition derived_entries (language : value) (availability : list string)
    (partners programs program_titles subjects : list value)
    (card_image_url advertised_course_run : value)
    (skill_names skills : list value) : list (string * value) :=
  [("language", language);
   ("availability", VList (VStr <$> availability));
   ("partners", VList partners);
   ("programs", VList programs);
   ("program_titles", VList program_titles);
   ("subjects", VList subjects);
   ("card_image_url", card_image_url);
   ("advertised_course_run", advertised_course_run);
   ("skill_names", VList skill_names);
   ("skills", VList skills)].

(** The document with the derived fields written over it, as a function of
    the course document alone. *)
Definition searchable_course_of (is_course_run_active : value → result bool)
    (course : value) : result (list (string * value)) :=
  language ← get_course_language course;
  availability ← get_course_availability is_course_run_active course;
  partners ← get_course_partners course;
  programs ← get_course_program_types course;
  program_titles ← get_course_program_titles course;
  subjects ← get_course_subjects course;
  card_image_url ← get_course_card_image_url course;
  advertised_course_run ← get_advertised_course_run course;
  skill_names ← get_course_skill_names course;
  skills ← get_course_skills course;
  match course with
  | VDict kvs =>
      Ok (dict_update kvs
            (derived_entries language availability partners programs
               program_titles subjects card_image_url advertised_course_run
               skill_names skills))
  | _ => Raise AttributeError
  end.

(** The outcome of projecting a course document on a list of fields. *)
Definition projection_of (is_course_run_active : value → result bool)
    (course : value) (fields : list string) : result value :=
  searchable ← searchable_course_of is_course_run_active course;
  Ok (VDict (pick searchable fields)).

End derived.

Import Py algolia_utils tasks fixtures contract derived.

(** ** Reasoning about outcomes and loops *)

Lemma bind_Ok {A B} (m : result A) (f : A → result B) (b : B) :
  m ≫= f = Ok b ↔ ∃ a, m = Ok a ∧ f a = Ok b.
Proof.
  destruct m as [a|e]; simpl.
  - split; [intros H; by exists a | by intros (a' & [= <-] & H)].
  - split; [done | by intros (a' & [=] & _)].
Qed.

Lemma bind_Ok_l {A B} (m : result A) (f : A → result B) (a : A) :
  m = Ok a → m ≫= f = f a.
Proof. by intros ->. Qed.

Lemma py_get_dict kvs k : py_get (VDict kvs) k = Ok (field (VDict kvs) k).
Proof. reflexivity. Qed.

Lemma py_get_Ok v k x : py_get v k = Ok x ↔ is_dict v ∧ x = field v k.
Proof.
  destruct v; simpl; unfold py_get, is_dict; simpl;
    try (split; [done | by intros [[? [=]] _]]).
  split; [intros [= <-]; eauto | by intros [_ ->]].
Qed.

Lemma filter_comp_total {A} (p : A → result bool) (q : A → bool) (xs : list A) :
  Forall (λ x, p x = Ok (q x)) xs →
  filter_comp p xs = Ok (filter (λ x, q x = true) xs).
Proof.
  induction 1 as [|x xs Hx _ IH]; [done|].
  simpl. rewrite Hx, IH. simpl. rewrite filter_cons.
  by destruct (q x); case_decide.
Qed.

Lemma filter_comp_Ok {A} (p : A → result bool) (xs ys : list A) :
  filter_comp p xs = Ok ys →
  Forall (λ x, is_ok (p x) = true) xs
  ∧ ys = filter (λ x, p x = Ok true) xs.
Proof.
  revert ys. induction xs as [|x xs IH]; intros ys H; simpl in H.
  - injection H as <-. by split.
  - apply bind_Ok in H as (b & Hb & H).
    apply bind_Ok in H as (zs & Hzs & H). injection H as <-.
    destruct (IH _ Hzs) as [Hall ->]. split.
    + constructor; [by rewrite Hb | done].
    + rewrite filter_cons. rewrite Hb.
      destruct b; case_decide; congruence.
Qed.

Lemma filter_first_match {A} (P : A → Prop) `{!∀ x, Decision (P x)}
    (before after : list A) (x : A) :
  P x → Forall (λ y, ¬ P y) before →
  filter P (before ++ x :: after) = x :: filter P after.
Proof.
  intros Hx Hb. rewrite filter_app, filter_cons_True by done.
  induction Hb as [|y ys Hy _ IH]; [done|].
  by rewrite filter_cons_False.
Qed.

Lemma filter_head_inv {A} (P : A → Prop) `{!∀ x, Decision (P x)}
    (xs rest : list A) (x : A) :
  filter P xs = x :: rest →
  ∃ before after,
    xs = before ++ x :: after ∧ P x ∧ Forall (λ y, ¬ P y) before.
Proof.
  induction xs as [|y ys IH]; [done|].
  rewrite filter_cons. case_decide as Hy.
  - intros [= -> _]. by exists [], ys.
  - intros (before & after & -> & Hx & Hb)%IH.
    exists (y :: before), after. by repeat split; [|constructor].
Qed.

Lemma filter_nil_inv {A} (P : A → Prop) `{!∀ x, Decision (P x)} (xs : list A) :
  filter P xs = [] ↔ Forall (λ y, ¬ P y) xs.
Proof.
  induction xs as [|y ys IH]; [by split|].
  rewrite filter_cons, Forall_cons. case_decide.
  - split; [done | by intros [? _]].
  - rewrite IH. split; [done | by intros [_ ?]].
Qed.

(** ** Indexability of a course *)
Section indexability.

Variable is_course_run_active : value → result bool.

Local Abbreviation should_index := (_should_index_course is_course_run_active).
Local Abbreviation partition := (partition_course_keys_for_indexing is_course_run_active).
Local Abbreviation classified := (contract.classified is_course_run_active).

Lemma uuid_test_on_dicts (uuid : value) (runs : list value) :
  Forall is_dict runs →
  Forall (λ run,
            (py_get run "uuid" ≫= λ u, mret (py_eq u uuid))
            = Ok (bool_decide (has_uuid uuid run))) runs.
Proof.
  intros H. eapply Forall_impl; [exact H|]. intros run [kvs ->]. simpl. f_equal.
  destruct (py_eq _ uuid) eqn:E; symmetry;
    [apply bool_decide_eq_true | apply bool_decide_eq_false];
    unfold has_uuid; simpl; congruence.
Qed.

Lemma get_course_run_by_uuid_runs (course uuid : value) (runs : list value) :
  course_runs_are course runs →
  _get_course_run_by_uuid course uuid
  = Ok (default VNone (head (filter (has_uuid uuid) runs))).
Proof.
  intros (doc & -> & Hruns & Hdicts). unfold _get_course_run_by_uuid. simpl.
  rewrite Hruns. simpl.
  rewrite (filter_comp_total _ (λ run, bool_decide (has_uuid uuid run))).
  2:{ by apply uuid_test_on_dicts. }
  simpl.
  replace (filter (λ x, bool_decide (has_uuid uuid x) = true) runs)
    with (filter (has_uuid uuid) runs).
  2:{ apply list_filter_iff. intros x. by rewrite bool_decide_eq_true. }
  by destruct (filter _ runs).
Qed.

Lemma get_course_run_by_uuid_advertised (course run : value) :
  advertised_run course run →
  _get_course_run_by_uuid course (field course "advertised_course_run_uuid") = Ok run.
Proof.
  intros (before & after & Hruns & Hrun & Hbefore).
  rewrite (get_course_run_by_uuid_runs _ _ _ Hruns).
  by rewrite filter_first_match.
Qed.

Lemma get_course_run_by_uuid_none (course : value) :
  no_advertised_run course →
  _get_course_run_by_uuid course (field course "advertised_course_run_uuid") = Ok VNone.
Proof.
  intros (runs & Hruns & Hnone).
  rewrite (get_course_run_by_uuid_runs _ _ _ Hruns).
  by rewrite (proj2 (filter_nil_inv (has_uuid _) runs) Hnone).
Qed.

Lemma get_course_run_by_uuid_Ok (course uuid r : value) :
  _get_course_run_by_uuid course uuid = Ok r →
  ∃ runs, course_runs_are course runs
          ∧ r = default VNone (head (filter (has_uuid uuid) runs)).
Proof.
  intros H. pose proof H as H0. unfold _get_course_run_by_uuid in H.
  apply bind_Ok in H as (runs_v & Hget & H).
  apply bind_Ok in H as (runs & Hiter & H).
  apply bind_Ok in H as (matching & Hfilter & H).
  destruct course as [| | | | |doc]; try discriminate Hget.
  injection Hget as <-.
  apply filter_comp_Ok in Hfilter as [Hall _].
  assert (Hdicts : Forall is_dict runs).
  { eapply Forall_impl; [exact Hall|]. intros run Hrun. simpl in Hrun.
    destruct run; try discriminate Hrun. by eexists. }
  assert (Hruns : course_runs_are (VDict doc) runs) by (by exists doc).
  exists runs. split; [done|].
  rewrite (get_course_run_by_uuid_runs _ uuid _ Hruns) in H0. congruence.
Qed.

(** What the check comes to once the advertised run is known. *)
Lemma should_index_course_advertised (cm : ContentMetadata) (run : value) :
  advertised_run (json_metadata cm) run →
  should_index cm
  = (is_course_run_active run ≫= λ active : bool,
     if negb active then Ok false
     else if truthy (field run "hidden") then Ok false
     else py_len (py_or (field (json_metadata cm) "owners") (VList []))
            ≫= λ n, Ok (Nat.ltb 0 n)).
Proof.
  intros Hadv. unfold _should_index_course.
  pose proof Hadv as (before & after & (doc & Hdoc & _ & Hdicts) & _ & _).
  rewrite Hdoc in *. rewrite py_get_dict. simpl mbind at 1.
  pose proof (get_course_run_by_uuid_advertised _ _ Hadv) as Hrun.
  simpl in Hrun. rewrite Hrun. simpl mbind at 1.
  apply Forall_app in Hdicts as [_ Hdicts].
  apply Forall_cons in Hdicts as [[kvs ->] _].
  simpl is_none. cbv iota.
  destruct (is_course_run_active _) as [[]|]; simpl; try done.
Qed.

Lemma nonempty_len (v : value) :
  nonempty v ↔ ∃ n, py_len (py_or v (VList [])) = Ok n ∧ Nat.ltb 0 n = true.
Proof.
  split.
  - destruct v as [| | |s|xs|kvs]; try done; simpl.
    + destruct s; [done|]. intros _. eexists. by split.
    + destruct xs; [done|]. intros _. eexists. by split.
    + destruct kvs; [done|]. intros _. eexists. by split.
  - intros (n & Hlen & Hn). unfold py_or in Hlen.
    destruct v as [|[]|z|s|xs|kvs]; simpl in *; try discriminate Hlen.
    + by injection Hlen as <-.
    + by injection Hlen as <-.
    + destruct (z =? 0)%Z; simpl in Hlen; [by injection Hlen as <- | done].
    + destruct s; simpl in Hlen; [by injection Hlen as <- | done].
    + destruct xs; simpl in Hlen; [by injection Hlen as <- | done].
    + destruct kvs; simpl in Hlen; [by injection Hlen as <- | done].
Qed.

(** C2.  The truth table of [_should_index_course].  The check answers
    [True] exactly when the course has an advertised run (the first run
    whose uuid is the advertised one), the run-activity predicate holds of
    that run, its [hidden] entry is not true, and [owners] has at least one
    item.  Flipping any one of the four makes the answer [False]: no run
    with the advertised uuid, an inactive advertised run, a hidden
    advertised run, or no owners. *)
Theorem should_index_course_truth_table (cm : ContentMetadata) :
  (should_index cm = Ok true ↔
     ∃ run, advertised_run (json_metadata cm) run
            ∧ is_course_run_active run = Ok true
            ∧ truthy (field run "hidden") = false
            ∧ nonempty (field (json_metadata cm) "owners"))
  ∧ (no_advertised_run (json_metadata cm) → should_index cm = Ok false)
  ∧ (∀ run, advertised_run (json_metadata cm) run →
       (is_course_run_active run = Ok false → should_index cm = Ok false)
       ∧ (is_course_run_active run = Ok true →
          truthy (field run "hidden") = true → should_index cm = Ok false)
       ∧ (is_course_run_active run = Ok true →
          truthy (field (json_metadata cm) "owners") = false →
          should_index cm = Ok false)).
Proof.
  split; [split|split].
  - intros H. pose proof H as H0. unfold _should_index_course in H.
    apply bind_Ok in H as (uuid & Huuid & H).
    apply bind_Ok in H as (r & Hr & H).
    apply py_get_Ok in Huuid as [_ ->].
    apply get_course_run_by_uuid_Ok in Hr as (runs & Hruns & ->).
    destruct (filter _ runs) as [|run rest] eqn:Hfilter; [done|].
    apply filter_head_inv in Hfilter as (before & after & -> & Hrun & Hbefore).
    assert (Hadv : advertised_run (json_metadata cm) run)
      by (by exists before, after).
    exists run. split; [done|].
    rewrite (should_index_course_advertised _ _ Hadv) in H0.
    destruct (is_course_run_active run) as [[]|]; simpl in H0; try done.
    split; [done|].
    destruct (truthy (field run "hidden")); [done|]. split; [done|].
    apply nonempty_len.
    destruct (py_len _) as [n|]; simpl in H0; [|done].
    exists n. split; [done | congruence].
  - intros (run & Hadv & Hactive & Hhidden & Howners).
    rewrite (should_index_course_advertised _ _ Hadv), Hactive. simpl.
    rewrite Hhidden.
    apply nonempty_len in Howners as (n & -> & Hn). simpl. by rewrite Hn.
  - intros Hnone. unfold _should_index_course.
    pose proof Hnone as (runs & (doc & Hdoc & _) & _). rewrite Hdoc in *.
    rewrite py_get_dict. simpl mbind at 1.
    pose proof (get_course_run_by_uuid_none _ Hnone) as Hrun.
    simpl in Hrun. by rewrite Hrun.
  - intros run Hadv.
    rewrite (should_index_course_advertised _ _ Hadv).
    split; [|split].
    + by intros ->.
    + intros -> ->. done.
    + intros -> Howners. simpl. destruct (truthy (field run "hidden")); [done|].
      unfold py_or. by rewrite Howners.
Qed.

(** *** The partition of content keys *)

(** The body of the loop of [partition_course_keys_for_indexing]. *)
Local Abbreviation classify :=
  (λ (acc : gset string * gset string) course_metadata,
     should_index course_metadata ≫= λ b : bool,
     mret (if b
           then ({[ content_key course_metadata ]} ∪ acc.1, acc.2)
           else (acc.1, {[ content_key course_metadata ]} ∪ acc.2))).

Lemma classified_cons (c : ContentMetadata) (l : list ContentMetadata)
    (b : bool) (k : string) :
  classified (c :: l) b k
  ↔ (content_key c = k ∧ should_index c = Ok b) ∨ classified l b k.
Proof.
  unfold contract.classified. setoid_rewrite elem_of_cons. split.
  - intros (c' & [->|Hin] & Hk & Hb); [by left | right; by exists c'].
  - intros [[Hk Hb]|(c' & Hin & Hk & Hb)]; [exists c | exists c']; auto.
Qed.

Lemma classify_loop (l : list ContentMetadata) (acc : gset string * gset string) :
  Forall (λ c, is_ok (should_index c) = true) l →
  ∃ sets,
    for_each classify l acc = Ok sets
    ∧ (∀ k, k ∈ sets.1 ↔ k ∈ acc.1 ∨ classified l true k)
    ∧ (∀ k, k ∈ sets.2 ↔ k ∈ acc.2 ∨ classified l false k).
Proof.
  intros Hall. revert acc. induction Hall as [|c l Hc _ IH]; intros acc.
  - exists acc. split; [done|].
    split; intros k; (split; [by left | intros [?|(c & []%elem_of_nil & _)]; done]).
  - simpl. destruct (should_index c) as [b|] eqn:Hb; [|done]. simpl.
    destruct (IH (if b then ({[content_key c]} ∪ acc.1, acc.2)
                  else (acc.1, {[content_key c]} ∪ acc.2)))
      as (sets & -> & H1 & H2).
    exists sets. split; [done|].
    split; intros k; [rewrite H1 | rewrite H2]; clear H1 H2;
      rewrite classified_cons, Hb; destruct b; simpl;
      rewrite ?elem_of_union, ?elem_of_singleton; naive_solver.
Qed.

Lemma classify_loop_Ok (l : list ContentMetadata) (acc sets : gset string * gset string) :
  for_each classify l acc = Ok sets →
  Forall (λ c, is_ok (should_index c) = true) l.
Proof.
  revert acc. induction l as [|c l IH]; intros acc H; [done|].
  simpl in H. apply bind_Ok in H as (acc' & Hc & H).
  constructor; [|by eapply IH].
  by destruct (should_index c).
Qed.

(** When the check returns on every record, the partition lists the set
    of keys on which it answered [True] and the set of those on which it
    answered [False]. *)
Lemma partition_sets (l : list ContentMetadata) :
  Forall (λ c, is_ok (should_index c) = true) l →
  ∃ s1 s2 : gset string,
    partition l = Ok (elements s1, elements s2)
    ∧ (∀ k, k ∈ s1 ↔ classified l true k)
    ∧ (∀ k, k ∈ s2 ↔ classified l false k).
Proof.
  intros Hall. destruct (classify_loop l (∅, ∅) Hall) as (sets & Hloop & H1 & H2).
  exists sets.1, sets.2.
  unfold partition_course_keys_for_indexing. rewrite Hloop. simpl.
  split; [done|].
  split; intros k; [rewrite H1 | rewrite H2]; simpl; set_solver.
Qed.

Lemma partition_classified (l : list ContentMetadata) :
  Forall (λ c, is_ok (should_index c) = true) l →
  ∃ ix nix,
    partition l = Ok (ix, nix)
    ∧ NoDup ix ∧ NoDup nix
    ∧ (∀ k, k ∈ ix ↔ classified l true k)
    ∧ (∀ k, k ∈ nix ↔ classified l false k).
Proof.
  intros (s1 & s2 & Hp & H1 & H2)%partition_sets.
  exists (elements s1), (elements s2).
  split; [done|]. split; [apply NoDup_elements|]. split; [apply NoDup_elements|].
  split; intros k; rewrite elem_of_elements; [apply H1 | apply H2].
Qed.

Lemma partition_Ok (l : list ContentMetadata) (keys : list string * list string) :
  partition l = Ok keys →
  Forall (λ c, is_ok (should_index c) = true) l.
Proof.
  unfold partition_course_keys_for_indexing.
  intros (sets & Hloop & _)%bind_Ok. by eapply classify_loop_Ok.
Qed.

Lemma NoDup_fmap_eq {A B} (f : A → B) (l : list A) (x y : A) :
  NoDup (f <$> l) → x ∈ l → y ∈ l → f x = f y → x = y.
Proof.
  induction l as [|a l IH]; simpl; [by intros _ ?%elem_of_nil|].
  rewrite NoDup_cons, !elem_of_cons. intros [Ha Hl] [->|Hx] [->|Hy] Hf; auto.
  - destruct Ha. rewrite Hf. by apply list_elem_of_fmap_2.
  - destruct Ha. rewrite <- Hf. by apply list_elem_of_fmap_2.
Qed.

(** C3, as amended.  When the indexability check returns on every record,
    the partition returns two duplicate-free lists of content keys whose
    union is the set of content keys of the input.  A key is in both lists
    exactly when it is the key of a record judged indexable and of a record
    judged non-indexable; so the lists are disjoint when no two records
    share a content key. *)
Theorem partition_course_keys_union_and_overlap (l : list ContentMetadata) :
  Forall (λ c, is_ok (should_index c) = true) l →
  ∃ ix nix,
    partition l = Ok (ix, nix)
    ∧ NoDup ix ∧ NoDup nix
    ∧ (∀ k, k ∈ ix ∨ k ∈ nix ↔ k ∈ content_key <$> l)
    ∧ (∀ k, k ∈ ix ∧ k ∈ nix ↔ classified l true k ∧ classified l false k)
    ∧ (NoDup (content_key <$> l) → ∀ k, ¬ (k ∈ ix ∧ k ∈ nix)).
Proof.
  intros Hall.
  destruct (partition_classified l Hall) as (ix & nix & Hp & Hix & Hnix & H1 & H2).
  exists ix, nix. split; [done|]. split; [done|]. split; [done|].
  split; [|split].
  - intros k. rewrite H1, H2, list_elem_of_fmap. split.
    + intros [(c & ? & ? & _)|(c & ? & ? & _)]; by exists c.
    + intros (c & -> & Hc).
      rewrite Forall_forall in Hall. specialize (Hall c Hc).
      destruct (should_index c) as [[]|] eqn:Hb; [| |done].
      * left. by exists c.
      * right. by exists c.
  - intros k. by rewrite H1, H2.
  - intros Hnodup k. rewrite H1, H2.
    intros [(c1 & Hc1 & Hk1 & Hb1) (c2 & Hc2 & Hk2 & Hb2)].
    assert (c1 = c2) as -> by (eapply NoDup_fmap_eq; eauto; congruence).
    congruence.
Qed.

(** *** Records without course runs *)

Lemma should_index_course_no_advertised (cm : ContentMetadata) :
  no_advertised_run (json_metadata cm) → should_index cm = Ok false.
Proof.
  intros Hnone. unfold _should_index_course.
  pose proof Hnone as (runs & (doc & Hdoc & _) & _). rewrite Hdoc in *.
  rewrite py_get_dict. simpl mbind at 1.
  pose proof (get_course_run_by_uuid_none _ Hnone) as Hrun.
  simpl in Hrun. by rewrite Hrun.
Qed.

Lemma no_course_runs_no_advertised (doc : list (string * value)) :
  assoc "course_runs" doc = None → no_advertised_run (VDict doc).
Proof.
  intros Hruns. exists []. split; [|done].
  exists doc. by rewrite Hruns.
Qed.

(** A record judged non-indexable only adds its key to the second list;
    the rest of the batch is classified as without it. *)
Lemma partition_insert_nonindexable (l1 l2 : list ContentMetadata)
    (cm : ContentMetadata) (ix nix : list string) :
  should_index cm = Ok false →
  partition (l1 ++ l2) = Ok (ix, nix) →
  ∃ nix',
    partition (l1 ++ cm :: l2) = Ok (ix, nix')
    ∧ ∀ k, k ∈ nix' ↔ k = content_key cm ∨ k ∈ nix.
Proof.
  intros Hcm Hp. pose proof (partition_Ok _ _ Hp) as Hall.
  assert (Hall' : Forall (λ c, is_ok (should_index c) = true) (l1 ++ cm :: l2)).
  { apply Forall_app in Hall as [? ?]. apply Forall_app. split; [done|].
    constructor; [by rewrite Hcm | done]. }
  destruct (partition_sets _ Hall) as (s1 & s2 & Hp0 & H1 & H2).
  destruct (partition_sets _ Hall') as (s1' & s2' & Hp' & H1' & H2').
  rewrite Hp0 in Hp. injection Hp as <- <-.
  assert (Hin : ∀ b k, classified (l1 ++ cm :: l2) b k
                       ↔ (content_key cm = k ∧ b = false) ∨ classified (l1 ++ l2) b k).
  { intros b k. unfold contract.classified.
    setoid_rewrite elem_of_app. setoid_rewrite elem_of_cons. split.
    - intros (c & [?|[->|?]] & Hk & Hb); [right; exists c; by auto | | right; exists c; by auto].
      left. split; [done | congruence].
    - intros [[Hk ->]|(c & [?|?] & Hk & Hb)]; [exists cm | exists c | exists c]; auto. }
  assert (s1' = s1) as ->.
  { apply set_eq. intros k. rewrite H1', H1, Hin. naive_solver. }
  exists (elements s2'). split; [done|].
  intros k. rewrite !elem_of_elements, H2', H2, Hin. naive_solver.
Qed.

End indexability.

(** The six rows of [test_should_index_course], and the row in which
    every knob keeps its default. *)
Example should_index_course_test_table :
  let check := _should_index_course published_enrollable_marketable in
  check (should_index_case true true false "published" true true) = Ok true
  ∧ check (should_index_case false true false "published" true true) = Ok false
  ∧ check (should_index_case true false false "published" true true) = Ok false
  ∧ check (should_index_case true true true "published" true true) = Ok false
  ∧ check (should_index_case true true false "unpublished" true true) = Ok false
  ∧ check (should_index_case true true false "published" false true) = Ok false
  ∧ check (should_index_case true true false "published" true false) = Ok false.
Proof. by vm_compute. Qed.

Lemma should_index_course_truth_table_witness :
  _should_index_course published_enrollable_marketable
    (should_index_case true true true "published" true true) = Ok false.
Proof.
  pose proof (should_index_course_truth_table published_enrollable_marketable
                (should_index_case true true true "published" true true))
    as (_ & _ & Hflip).
  set (run := VDict [("hidden", VBool true); ("uuid", VStr "uuid-advertised");
                     ("status", VStr "published"); ("is_enrollable", VBool true);
                     ("is_marketable", VBool true)]).
  assert (Hadv : advertised_run
            (json_metadata (should_index_case true true true "published" true true))
            run).
  { exists [], []. split; [|split].
    - eexists. split; [reflexivity|]. split; [reflexivity|].
      constructor; [by eexists | constructor].
    - reflexivity.
    - constructor. }
  destruct (Hflip run Hadv) as (_ & Hhidden & _).
  apply Hhidden; reflexivity.
Defined.

(** C3 fails as stated: the key shared by an indexable and a non-indexable
    record is returned in both lists; and the partition does not return on
    every collection of records. *)
Lemma partition_course_keys_not_disjoint :
  (∃ ix nix k,
      partition_course_keys_for_indexing published_enrollable_marketable
        conflicting_records = Ok (ix, nix)
      ∧ k ∈ ix ∧ k ∈ nix)
  ∧ partition_course_keys_for_indexing published_enrollable_marketable
      [null_course_runs] = Raise TypeError.
Proof.
  split; [|by vm_compute].
  exists ["course+key"], ["course+key"], "course+key".
  split; [by vm_compute|]. split; apply list_elem_of_singleton; reflexivity.
Qed.

Lemma partition_course_keys_union_and_overlap_witness :
  ∃ ix nix,
    partition_course_keys_for_indexing published_enrollable_marketable
      conflicting_records = Ok (ix, nix)
    ∧ NoDup ix ∧ NoDup nix
    ∧ (∀ k, k ∈ ix ∨ k ∈ nix ↔ k ∈ content_key <$> conflicting_records).
Proof.
  destruct (partition_course_keys_union_and_overlap
              published_enrollable_marketable conflicting_records)
    as (ix & nix & Hp & Hix & Hnix & Hunion & _).
  - repeat constructor.
  - exists ix, nix. auto.
Defined.

(** ** Projection of a course *)

Lemma for_each_cons {A S} (body : S → A → result S) (x : A) (xs : list A) (s : S) :
  for_each body (x :: xs) s = body s x ≫= for_each body xs.
Proof. reflexivity. Qed.

Lemma for_each_app {A S} (body : S → A → result S) (xs ys : list A) (s : S) :
  for_each body (xs ++ ys) s = for_each body xs s ≫= for_each body ys.
Proof.
  revert s. induction xs as [|x xs IH]; intros s; [done|].
  simpl. destruct (body s x); [apply IH | done].
Qed.

Lemma for_each_ext {A B S} (body1 : S → A → result S) (body2 : S → B → result S)
    (R : A → B → Prop) (xs : list A) (ys : list B) (s : S) :
  (∀ s x y, R x y → body1 s x = body2 s y) →
  Forall2 R xs ys →
  for_each body1 xs s = for_each body2 ys s.
Proof.
  intros Hbody H. revert s. induction H as [|x y xs ys Hxy _ IH]; intros s; [done|].
  simpl. rewrite (Hbody s x y Hxy). destruct (body2 s y); [apply IH | done].
Qed.

(** *** Subjects *)

(** The body of the loop of [get_course_subjects]. *)
Local Abbreviation add_subject :=
  (λ (acc : gset hashable) subject,
     if is_str subject then
       to_hashable subject ≫= λ h, mret ({[ h ]} ∪ acc)
     else
       py_get subject "name" ≫= λ subject_name,
       if truthy subject_name
       then to_hashable subject_name ≫= λ h, mret ({[ h ]} ∪ acc)
       else mret acc).

Lemma get_course_subjects_list (doc : list (string * value)) (l : list value) :
  assoc "subjects" doc = Some (VList l) →
  get_course_subjects (VDict doc)
  = for_each add_subject l ∅ ≫= λ names, Ok (list_of_set names).
Proof.
  intros H. unfold get_course_subjects. simpl. rewrite H. simpl.
  by destruct l.
Qed.

Lemma add_subject_named (acc : gset hashable) (s : string) (v : value) :
  s ≠ EmptyString →
  v = VStr s ∨ (∃ d, v = VDict d ∧ assoc "name" d = Some (VStr s)) →
  add_subject acc v = Ok ({[ HStr s ]} ∪ acc).
Proof.
  intros Hs [->|(d & -> & Hname)]; [done|].
  destruct s as [|c s]; [done|]. simpl. by rewrite Hname.
Qed.

Lemma add_subject_entry (acc : gset hashable) (v : value) :
  subject_entry v → is_ok (add_subject acc v) = true.
Proof.
  intros [Hstr|([d ->] & Hname)].
  - by destruct v.
  - simpl in *. destruct (default VNone (assoc "name" d)); simpl in *.
    + done.
    + by destruct b.
    + by destruct (negb _).
    + by destruct (negb _).
    + by destruct Hname as [?| ->].
    + by destruct Hname as [?| ->].
Qed.

Lemma add_subject_nameless (acc : gset hashable) (d : list (string * value)) :
  truthy (field (VDict d) "name") = false →
  add_subject acc (VDict d) = Ok acc.
Proof. simpl. by intros ->. Qed.

Lemma for_each_is_ok {A S} (body : S → A → result S) (xs : list A) (s : S) :
  Forall (λ x, ∀ s, is_ok (body s x) = true) xs →
  is_ok (for_each body xs s) = true.
Proof.
  intros H. revert s. induction H as [|x xs Hx _ IH]; intros s; [done|].
  simpl. specialize (Hx s). destruct (body s x); [apply IH | done].
Qed.

(** C9, as amended.  For every non-empty subject name, a course whose
    subjects are the name as a string and a course whose subjects are a
    mapping with that name project to the same subjects, the name once;
    and in general the projection is the same for two subject lists that
    represent, entry by entry, the same non-empty names, whichever of the
    two representations each entry uses. *)
Theorem get_course_subjects_format_agnostic :
  (∀ s others, s ≠ EmptyString →
     get_course_subjects (VDict [("subjects", VList [subject_as_string s])])
     = Ok [VStr s]
     ∧ get_course_subjects
         (VDict [("subjects", VList [subject_as_mapping s others])])
       = Ok [VStr s])
  ∧ (∀ doc1 doc2 l1 l2,
       assoc "subjects" doc1 = Some (VList l1) →
       assoc "subjects" doc2 = Some (VList l2) →
       Forall2 same_subject l1 l2 →
       get_course_subjects (VDict doc1) = get_course_subjects (VDict doc2)
       ∧ is_ok (get_course_subjects (VDict doc1)) = true).
Proof.
  split.
  - intros s others Hs.
    assert (Hone : list_of_set ({[HStr s]} ∪ ∅) = [VStr s]).
    { unfold list_of_set. by rewrite (right_id_L ∅ (∪)), elements_singleton. }
    destruct s as [|c s]; [done|].
    split; unfold get_course_subjects; simpl; by rewrite Hone.
  - intros doc1 doc2 l1 l2 H1 H2 Hsame.
    rewrite (get_course_subjects_list _ _ H1), (get_course_subjects_list _ _ H2).
    assert (Heq : for_each add_subject l1 ∅ = for_each add_subject l2 ∅).
    { apply (for_each_ext _ _ same_subject); [|done].
      intros acc a b [s a' b' Hs Ha Hb].
      by rewrite (add_subject_named acc s a'), (add_subject_named acc s b'). }
    split; [by rewrite Heq|].
    assert (Hok : is_ok (for_each add_subject l1 ∅) = true).
    { apply for_each_is_ok. eapply Forall2_Forall_l; [exact Hsame|].
      apply Forall_true. intros a b [s a' b' Hs Ha Hb] acc.
      by rewrite (add_subject_named acc s a'). }
    by destruct (for_each add_subject l1 ∅).
Qed.

(** The four rows of [test_get_course_subjects], compared as sets. *)
Example get_course_subjects_test_table :
  (∃ names,
      get_course_subjects
        (VDict [("subjects", VList [VStr "Computer Science"; VStr "Communication"])])
      = Ok names
      ∧ names ≡ₚ [VStr "Computer Science"; VStr "Communication"])
  ∧ (∃ names,
        get_course_subjects
          (VDict [("subjects", VList [VDict [("name", VStr "Computer Science")];
                                      VDict [("name", VStr "Communication")]])])
        = Ok names
        ∧ names ≡ₚ [VStr "Computer Science"; VStr "Communication"])
  ∧ get_course_subjects (VDict [("subjects", VNone)]) = Ok []
  ∧ get_course_subjects (VDict [("subjects", VList [])]) = Ok [].
Proof.
  split; [|split; [|split]]; try by vm_compute.
  - eexists. split; [by vm_compute|]. apply Permutation_swap.
  - eexists. split; [by vm_compute|]. apply Permutation_swap.
Qed.

(** C9 fails as stated: for the empty name, the string is kept and the
    mapping is skipped. *)
Lemma get_course_subjects_empty_name_differs :
  get_course_subjects
    (VDict [("subjects", VList [subject_as_string EmptyString])])
  = Ok [VStr EmptyString]
  ∧ get_course_subjects
      (VDict [("subjects", VList [subject_as_mapping EmptyString []])])
    = Ok [].
Proof. split; by vm_compute. Qed.

Lemma get_course_subjects_format_agnostic_witness :
  get_course_subjects
    (VDict [("subjects", VList [VStr "Communication"; VStr "Design"])])
  = get_course_subjects
      (VDict [("title", VStr "A course");
              ("subjects", VList [VDict [("name", VStr "Communication")];
                                  VStr "Design"])]).
Proof.
  destruct get_course_subjects_format_agnostic as [_ Hgeneral].
  eapply Hgeneral; [reflexivity | reflexivity |].
  constructor; [|constructor; [|constructor]].
  - apply (same_subject_intro "Communication");
      [done | by left | right; by eexists].
  - apply (same_subject_intro "Design"); [done | by left | by left].
Defined.

(** *** Availability *)
Section availability.

Variable is_course_run_active : value → result bool.

(** The body of the loop of [get_course_availability]. *)
Local Abbreviation add_availability :=
  (λ (acc : gset string) course_run,
     py_get course_run "availability" ≫= λ a,
     py_lower (py_or a (VStr EmptyString)) ≫= λ code,
     mret ({[ COURSE_AVAILABILITY_MESSAGES_get code ]} ∪ acc)).

Lemma availability_messages_label (raw : value) :
  availability_code raw →
  py_lower (py_or raw (VStr EmptyString)) ≫= (λ code,
    Ok (COURSE_AVAILABILITY_MESSAGES_get code))
  = Ok (availability_label raw).
Proof.
  assert (Hget : ∀ code, COURSE_AVAILABILITY_MESSAGES_get (lower code)
                         = availability_label (VStr code)).
  { intros code. unfold COURSE_AVAILABILITY_MESSAGES_get, availability_label.
    destruct (String.eqb_spec (lower code) "current") as [->|Hne1]; [done|].
    rewrite decide_False by done.
    destruct (String.eqb_spec (lower code) "upcoming") as [->|Hne2]; [done|].
    by rewrite decide_False by done. }
  intros [Hstr|Hfalsy].
  - destruct raw as [| | |code| |]; try done.
    unfold py_or. destruct (truthy (VStr code)) eqn:Ht; simpl.
    + by rewrite Hget.
    + destruct code; [done | discriminate Ht].
  - unfold py_or. rewrite Hfalsy. simpl.
    destruct raw as [| | |code| |]; try done.
    destruct code; [done | discriminate Hfalsy].
Qed.

Lemma add_availability_loop (runs : list value) (acc : gset string) :
  Forall (λ run, is_dict run ∧ availability_code (field run "availability")) runs →
  ∃ labels,
    for_each add_availability runs acc = Ok labels
    ∧ ∀ lbl, lbl ∈ labels
             ↔ lbl ∈ acc
               ∨ ∃ run, run ∈ runs ∧ lbl = availability_label (field run "availability").
Proof.
  intros H. revert acc. induction H as [|run runs [[d ->] Hcode] _ IH]; intros acc.
  - exists acc. split; [done|]. intros lbl. split; [by left|].
    by intros [?|(run & ?%elem_of_nil & _)].
  - rewrite for_each_cons. cbv beta. rewrite py_get_dict. simpl mbind at 1.
    pose proof (availability_messages_label _ Hcode) as Hlabel.
    destruct (py_lower _) as [code|]; [|done]. simpl in Hlabel.
    injection Hlabel as Hlabel. simpl mbind at 1. rewrite Hlabel.
    change (default VNone (assoc "availability" d))
      with (field (VDict d) "availability") in *.
    destruct (IH ({[availability_label (field (VDict d) "availability")]} ∪ acc))
      as (labels & -> & Hlabels).
    exists labels. split; [done|]. intros lbl. rewrite Hlabels.
    setoid_rewrite elem_of_cons. rewrite elem_of_union, elem_of_singleton.
    naive_solver.
Qed.

(** C8.  [get_course_availability] returns the labels of the active runs
    of the course, each label once: the raw availability code of an active
    run, lowercased, is looked up in the table [current] to [Available
    Now], [upcoming] to [Upcoming], and any other code or no code gives
    [Archived]; runs that are not active do not contribute. *)
Theorem get_course_availability_labels
    (doc : list (string * value)) (runs : list value) :
  py_iter (py_or (field (VDict doc) "course_runs") (VList [])) = Ok runs →
  Forall (λ run, is_ok (is_course_run_active run) = true) runs →
  Forall (λ run, is_course_run_active run = Ok true →
                 is_dict run ∧ availability_code (field run "availability")) runs →
  ∃ labels,
    get_course_availability is_course_run_active (VDict doc) = Ok labels
    ∧ NoDup labels
    ∧ ∀ lbl, lbl ∈ labels
             ↔ ∃ run, run ∈ runs
                      ∧ is_course_run_active run = Ok true
                      ∧ lbl = availability_label (field run "availability").
Proof.
  intros Hruns Hok Hshape. unfold get_course_availability.
  rewrite py_get_dict. simpl mbind at 1.
  change (default VNone (assoc "course_runs" doc))
    with (field (VDict doc) "course_runs").
  rewrite Hruns. simpl mbind at 1.
  rewrite (filter_comp_total _
             (λ run, bool_decide (is_course_run_active run = Ok true))).
  2:{ eapply Forall_impl; [exact Hok|]. intros run Hrun. simpl in Hrun.
      destruct (is_course_run_active run) as [[]|]; done. }
  simpl mbind at 1.
  set (active := filter _ runs).
  assert (Hactive : ∀ run, run ∈ active
                           ↔ run ∈ runs ∧ is_course_run_active run = Ok true).
  { intros run. unfold active. rewrite list_elem_of_filter, bool_decide_eq_true.
    naive_solver. }
  destruct (add_availability_loop active ∅) as (labels & -> & Hlabels).
  { apply Forall_forall. intros run [Hin Hrun]%Hactive.
    rewrite Forall_forall in Hshape. by apply Hshape. }
  exists (elements labels). split; [done|]. split; [apply NoDup_elements|].
  intros lbl. rewrite elem_of_elements, Hlabels. split.
  - intros [?%elem_of_empty|(run & [Hin Hrun]%Hactive & ->)]; [done|].
    by exists run.
  - intros (run & Hin & Hrun & ->). right. exists run. split; [|done].
    by apply Hactive.
Qed.

End availability.

(** The three rows of [test_get_course_availability]; the codes are
    capitalised there. *)
Example get_course_availability_test_table :
  let availability := get_course_availability published_enrollable_marketable in
  availability (availability_case (VStr "Current")) = Ok ["Available Now"]
  ∧ availability (availability_case (VStr "Upcoming")) = Ok ["Upcoming"]
  ∧ availability (availability_case (VStr "Archived")) = Ok ["Archived"].
Proof. by vm_compute. Qed.

Lemma get_course_availability_labels_witness :
  ∃ labels,
    get_course_availability published_enrollable_marketable
      (availability_case (VStr "Current")) = Ok labels
    ∧ NoDup labels
    ∧ "Available Now" ∈ labels.
Proof.
  set (run := VDict [("status", VStr "published"); ("is_enrollable", VBool true);
                     ("is_marketable", VBool true);
                     ("availability", VStr "Current")]).
  destruct (get_course_availability_labels published_enrollable_marketable
              [("course_runs", VList [run])] [run])
    as (labels & Hlabels & Hnodup & Hin).
  - reflexivity.
  - by repeat constructor.
  - constructor; [|constructor]. intros _. split; [by eexists | by left].
  - exists labels. split; [exact Hlabels|]. split; [exact Hnodup|].
    apply Hin. exists run. split; [apply list_elem_of_singleton; reflexivity|].
    split; reflexivity.
Defined.

(** *** Records of an unexpected shape *)
Section malformed_records.

Variable is_course_run_active : value → result bool.

Local Abbreviation should_index := (_should_index_course is_course_run_active).
Local Abbreviation partition := (partition_course_keys_for_indexing is_course_run_active).

Lemma no_course_runs_derived_fields (doc : list (string * value)) :
  assoc "course_runs" doc = None →
  get_course_language (VDict doc) = Ok VNone
  ∧ get_advertised_course_run (VDict doc) = Ok VNone
  ∧ get_course_availability is_course_run_active (VDict doc) = Ok [].
Proof.
  intros Hruns.
  pose proof (get_course_run_by_uuid_none _ (no_course_runs_no_advertised _ Hruns))
    as Hrun.
  simpl in Hrun.
  unfold get_course_language, get_advertised_course_run, get_course_availability.
  rewrite !py_get_dict. simpl. rewrite Hrun, Hruns. simpl.
  by rewrite elements_empty.
Qed.

(** C7, as amended.  A course record whose document is a mapping with no
    [course_runs] entry is judged non-indexable without an exception, its
    language and advertised run are [None] and its availability is empty,
    and within a batch the partition puts its key with the non-indexable
    ones and classifies the other records as without it.
    [get_course_subjects] returns when every subjects entry is a string or
    a mapping whose name is a string or blank, and a mapping whose name is
    blank or missing is skipped: the projection is that of the other
    entries. *)
Theorem malformed_records_tolerated :
  (∀ cm doc,
     json_metadata cm = VDict doc → assoc "course_runs" doc = None →
     should_index cm = Ok false
     ∧ get_course_language (VDict doc) = Ok VNone
     ∧ get_advertised_course_run (VDict doc) = Ok VNone
     ∧ get_course_availability is_course_run_active (VDict doc) = Ok []
     ∧ ∀ l1 l2 ix nix,
         partition (l1 ++ l2) = Ok (ix, nix) →
         ∃ nix',
           partition (l1 ++ cm :: l2) = Ok (ix, nix')
           ∧ ∀ k, k ∈ nix' ↔ k = content_key cm ∨ k ∈ nix)
  ∧ (∀ doc l,
       assoc "subjects" doc = Some (VList l) →
       Forall subject_entry l →
       is_ok (get_course_subjects (VDict doc)) = true)
  ∧ (∀ doc1 doc2 l1 l2 d,
       assoc "subjects" doc1 = Some (VList (l1 ++ VDict d :: l2)) →
       assoc "subjects" doc2 = Some (VList (l1 ++ l2)) →
       truthy (field (VDict d) "name") = false →
       get_course_subjects (VDict doc1) = get_course_subjects (VDict doc2)).
Proof.
  split; [|split].
  - intros cm doc Hdoc Hruns.
    assert (Hfalse : should_index cm = Ok false).
    { apply should_index_course_no_advertised. rewrite Hdoc.
      by apply no_course_runs_no_advertised. }
    destruct (no_course_runs_derived_fields doc Hruns) as (? & ? & ?).
    repeat (split; [done|]).
    intros l1 l2 ix nix Hp. by apply partition_insert_nonindexable.
  - intros doc l Hdoc Hl. rewrite (get_course_subjects_list _ _ Hdoc).
    assert (Hok : is_ok (for_each
              (λ (acc : gset hashable) subject,
                 if is_str subject then
                   to_hashable subject ≫= λ h, mret ({[ h ]} ∪ acc)
                 else
                   py_get subject "name" ≫= λ subject_name,
                   if truthy subject_name
                   then to_hashable subject_name ≫= λ h, mret ({[ h ]} ∪ acc)
                   else mret acc) l ∅) = true).
    { apply for_each_is_ok. eapply Forall_impl; [exact Hl|].
      intros v Hv acc. by apply add_subject_entry. }
    by destruct (for_each _ l ∅).
  - intros doc1 doc2 l1 l2 d H1 H2 Hname.
    rewrite (get_course_subjects_list _ _ H1), (get_course_subjects_list _ _ H2).
    rewrite !for_each_app.
    destruct (for_each _ l1 ∅) as [acc|]; [|done].
    rewrite !(bind_Ok_l (Ok acc) _ acc) by done.
    by rewrite for_each_cons, (add_subject_nameless acc d Hname).
Qed.

End malformed_records.

(** C7 fails as stated: a subjects entry that is neither a string nor a
    mapping raises [AttributeError], which ends the projection of the whole
    batch; and so does, in the partition, a run that is not a mapping. *)
Lemma malformed_records_raise :
  get_course_subjects numeric_subject = Raise AttributeError
  ∧ (create_algolia_objects_from_courses published_enrollable_marketable
       [0; 1] (Some ALGOLIA_FIELDS) two_courses).1 = Raise AttributeError
  ∧ partition_course_keys_for_indexing published_enrollable_marketable
      [numeric_course_run;
       should_index_case true true false "published" true true]
    = Raise AttributeError.
Proof. repeat split; by vm_compute. Qed.

Lemma malformed_records_tolerated_witness :
  _should_index_course published_enrollable_marketable no_course_runs = Ok false
  ∧ ∃ nix',
      partition_course_keys_for_indexing published_enrollable_marketable
        (conflicting_records ++ no_course_runs :: [])
      = Ok (["course+key"], nix')
      ∧ ∀ k, k ∈ nix' ↔ k = "course+bare" ∨ k ∈ ["course+key"].
Proof.
  destruct (malformed_records_tolerated published_enrollable_marketable)
    as (Hruns & _ & _).
  destruct (Hruns no_course_runs _ eq_refl eq_refl) as (Hfalse & _ & _ & _ & Hbatch).
  split; [exact Hfalse|].
  apply (Hbatch conflicting_records [] ["course+key"] ["course+key"]).
  by vm_compute.
Defined.

(** ** The caller's record is left alone *)
Section frame.

Variable is_course_run_active : value → result bool.

Lemma writes_only_ret {A} (l : loc) (x : A) : writes_only l (mret x).
Proof. by intros h l' _. Qed.

Lemma writes_only_lift {A} (l : loc) (r : result A) : writes_only l (lift r).
Proof. by intros h l' _. Qed.

Lemma writes_only_load (l l0 : loc) : writes_only l (load l0).
Proof. by intros h l' _. Qed.

Lemma writes_only_update (l : loc) (other : list (string * value)) :
  writes_only l (update l other).
Proof.
  intros h l' Hne. unfold update.
  destruct (h !!! l); simpl; try done. by rewrite lookup_insert_ne.
Qed.

Lemma writes_only_bind {A B} (l : loc) (m : St A) (f : A → St B) :
  writes_only l m → (∀ a, writes_only l (f a)) → writes_only l (m ≫= f).
Proof.
  intros Hm Hf h l' Hne. unfold mbind, St_bind.
  specialize (Hm h l' Hne). destruct (m h) as [[a|e] h1]; simpl in *.
  - by rewrite (Hf a h1 l' Hne).
  - done.
Qed.

Lemma deepcopy_fresh (l : loc) (h : gmap loc value) :
  ∃ l', deepcopy l h = (Ok l', <[l' := h !!! l]> h) ∧ h !! l' = None.
Proof.
  exists (fresh (dom h)). split; [done|].
  apply not_elem_of_dom, is_fresh.
Qed.

(** C10.  [_algolia_object_from_course] leaves its argument unchanged:
    whatever it returns or raises, the course mapping the caller passed
    holds after the call what it held before, and so does every other
    object of the store; the derived fields go to a copy. *)
Theorem algolia_object_from_course_leaves_input
    (course : loc) (algolia_fields : list string)
    (h : gmap loc value) (c : value) :
  h !! course = Some c →
  let h' := (_algolia_object_from_course is_course_run_active
               course algolia_fields h).2 in
  h' !! course = Some c ∧ h ⊆ h'.
Proof.
  intros Hc.
  set (run := _algolia_object_from_course is_course_run_active
                course algolia_fields h).
  assert (Hframe : ∀ l v, h !! l = Some v → run.2 !! l = Some v).
  { intros l v Hl. unfold run, _algolia_object_from_course.
    destruct (deepcopy_fresh course h) as (l' & Hcopy & Hfresh).
    unfold mbind at 1, St_bind at 1. rewrite Hcopy.
    match goal with
    | |- context [ (?body (<[l':=_]> h)).2 ] =>
        assert (Hbody : writes_only l' body)
    end.
    { repeat (apply writes_only_bind;
              [first [ apply writes_only_lift | apply writes_only_load
                     | apply writes_only_update ]
              | intros ?]).
      apply writes_only_ret. }
    rewrite Hbody by congruence.
    rewrite lookup_insert_ne; [done | congruence]. }
  split; [by apply Hframe|]. apply map_subseteq_spec. exact Hframe.
Qed.

End frame.

Lemma algolia_object_from_course_leaves_input_witness :
  (_algolia_object_from_course published_enrollable_marketable
     1 ALGOLIA_FIELDS two_courses).2 !! 1
  = Some (json_metadata (should_index_case true true false "published" true true)).
Proof.
  apply (algolia_object_from_course_leaves_input
           published_enrollable_marketable 1 ALGOLIA_FIELDS two_courses).
  reflexivity.
Defined.

(** The derived fields are written to the copy: after the call the store
    holds one more object, which carries them, and the input carries none. *)
Example algolia_object_from_course_writes_copy :
  let h' := (_algolia_object_from_course published_enrollable_marketable
               1 ALGOLIA_FIELDS two_courses).2 in
  field (h' !!! 1) "availability" = VNone
  ∧ ∃ l', two_courses !! l' = None
          ∧ field (h' !!! l') "availability" = VList [VStr "Archived"].
Proof.
  split; [by vm_compute|]. exists 2. split; by vm_compute.
Qed.

(** ** The expiring task semaphore *)
Section semaphore.

Context {A : Type} (time_delta : option Z) (work : BoundTask → A).

Local Abbreviation delta := (default ONE_HOUR time_delta).
Local Abbreviation wrapped := (expiring_task_semaphore time_delta work).

Lemma task_recently_run_equivalent (store : list TaskResult) (now : Z)
    (self : BoundTask) (d : Z) :
  task_recently_run store now self d = true
  ↔ ∃ r, r ∈ store ∧ equivalent_run now d self r.
Proof.
  unfold task_recently_run. rewrite bool_decide_eq_true, Exists_exists.
  unfold equivalent_run. naive_solver.
Qed.

Lemma wrapped_raises (store : list TaskResult) (now : Z) (self : BoundTask) :
  (∃ r, r ∈ store ∧ equivalent_run now delta self r) →
  wrapped store now self
  = TaskRecentlyRunError (name self) (request_args self) (request_kwargs self).
Proof.
  intros H%task_recently_run_equivalent.
  unfold expiring_task_semaphore. by rewrite H.
Qed.

Lemma wrapped_returns (store : list TaskResult) (now : Z) (self : BoundTask) :
  (∀ r, r ∈ store → ¬ equivalent_run now delta self r) →
  wrapped store now self = Returned (work self).
Proof.
  intros H. unfold expiring_task_semaphore.
  destruct (task_recently_run _ _ _ _) eqn:E; [|done].
  apply task_recently_run_equivalent in E as (r & Hin & Hr).
  by destruct (H r Hin).
Qed.

(** C1, as amended.  For every task name and recency window, the wrapped
    task raises [TaskRecentlyRunError] when a row exists with the same
    task name, a status other than [FAILURE] and [REVOKED] (so the unready
    ones and [SUCCESS]), created within the window, serialized args and
    kwargs equal to the request's, and another execution id; and it runs
    the work and returns its result unchanged when no such row exists.  In
    particular, with such a row as the only one, changing one thing is
    enough for the work to run: the status made [FAILURE] or [REVOKED], the
    row made older than the window, other args or kwargs, or the id of the
    execution itself. *)
Theorem expiring_task_semaphore_blocks_equivalent_runs
    (store : list TaskResult) (now : Z) (self : BoundTask) :
  ((∃ r, r ∈ store ∧ equivalent_run now delta self r) →
   wrapped store now self
   = TaskRecentlyRunError (name self) (request_args self) (request_kwargs self))
  ∧ ((∀ r, r ∈ store → ¬ equivalent_run now delta self r) →
     wrapped store now self = Returned (work self))
  ∧ (∀ r, equivalent_run now delta self r →
       wrapped [r] now self
       = TaskRecentlyRunError (name self) (request_args self) (request_kwargs self)
       ∧ (∀ s, s ∈ DISCARDED_STATES →
            wrapped [with_status r s] now self = Returned (work self))
       ∧ (∀ t, (t < now - delta)%Z →
            wrapped [with_date_created r t] now self = Returned (work self))
       ∧ (∀ args kwargs,
            args ≠ request_args self ∨ kwargs ≠ request_kwargs self →
            wrapped [with_arguments r args kwargs] now self = Returned (work self))
       ∧ wrapped [with_task_id r (request_id self)] now self
         = Returned (work self)).
Proof.
  split; [apply wrapped_raises|]. split; [apply wrapped_returns|].
  intros r Hr. split.
  { apply wrapped_raises. exists r. split; [apply list_elem_of_singleton|]; done. }
  repeat split.
  - intros s Hs. apply wrapped_returns.
    intros r' ->%list_elem_of_singleton (_ & Hstatus & _). by apply Hstatus.
  - intros t Ht. apply wrapped_returns.
    intros r' ->%list_elem_of_singleton (_ & _ & Hdate & _). simpl in Hdate. lia.
  - intros args kwargs Hdiff. apply wrapped_returns.
    intros r' ->%list_elem_of_singleton (_ & _ & _ & Hargs & Hkwargs & _).
    simpl in *. by destruct Hdiff.
  - apply wrapped_returns.
    intros r' ->%list_elem_of_singleton (_ & _ & _ & _ & _ & Hid). by apply Hid.
Qed.

End semaphore.

(** The tests of [TestTaskResultFunctions] on the semaphore, in their
    order: same args, same kwargs, a row four hours old, failed or revoked
    rows, the row of the execution itself. *)
Example semaphore_tests :
  let call args kwargs store :=
    expiring_task_semaphore None mock_task store now (bound_task_object args kwargs) in
  call test_args "{}" [saved_with "{}" SUCCESS other_task_id now]
  = TaskRecentlyRunError "mock_task" test_args "{}"
  ∧ call "[]" test_kwargs
      [with_arguments mock_task_result "[]" test_kwargs]
    = TaskRecentlyRunError "mock_task" "[]" test_kwargs
  ∧ call test_args test_kwargs
      [saved_with test_kwargs SUCCESS other_task_id (now - 4 * 3600)]
    = Returned COMPUTED_PRECIOUS_OBJECT
  ∧ call test_args "{}" [saved_with test_kwargs FAILURE other_task_id (now - 60)]
    = Returned COMPUTED_PRECIOUS_OBJECT
  ∧ call test_args "{}" [saved_with test_kwargs REVOKED other_task_id (now - 60)]
    = Returned COMPUTED_PRECIOUS_OBJECT
  ∧ call test_args test_kwargs
      [saved_with test_kwargs PENDING mock_task_id (now - 60)]
    = Returned COMPUTED_PRECIOUS_OBJECT.
Proof. by vm_compute. Qed.

(** The tests on [unready_tasks]: a row in an unready state within two
    hours is found, a row in a ready state is not, nor is a row older than
    the window, nor a row of another task. *)
Example unready_tasks_tests :
  Forall (λ s, unready_tasks [with_status mock_task_result s] now "mock_task" 7200
               ≠ []) UNREADY_STATES
  ∧ Forall (λ s, unready_tasks [with_status mock_task_result s] now "mock_task" 7200
                 = []) READY_STATES
  ∧ unready_tasks [saved_with test_kwargs PENDING other_task_id (now - 3600)]
      now "mock_task" 1800 = []
  ∧ unready_tasks [mock_task_result] now "other_task_name" 86400 = [].
Proof. repeat split; repeat constructor; by vm_compute. Qed.

(** C1 fails as stated: a row with a ready status stands in the way.  In
    [test_semaphore_raises_recent_run_error_for_same_args] the only row has
    status [SUCCESS], the one [setUp] gave it, and the error is raised;
    the check worded over the unready rows alone would let the work run. *)
Lemma semaphore_raises_on_ready_status :
  let row := saved_with "{}" SUCCESS other_task_id now in
  let self := bound_task_object test_args "{}" in
  status row ∈ READY_STATES
  ∧ expiring_task_semaphore None mock_task [row] now self
    = TaskRecentlyRunError "mock_task" test_args "{}"
  ∧ task_recently_run_as_worded [row] now self ONE_HOUR = false.
Proof.
  split; [|split; by vm_compute].
  apply list_elem_of_here.
Qed.

Lemma expiring_task_semaphore_blocks_equivalent_runs_witness :
  let row := saved_with test_kwargs PENDING other_task_id (now - 60) in
  let self := bound_task_object test_args test_kwargs in
  expiring_task_semaphore None mock_task [row] now self
  = TaskRecentlyRunError "mock_task" test_args test_kwargs
  ∧ expiring_task_semaphore None mock_task [with_status row REVOKED] now self
    = Returned COMPUTED_PRECIOUS_OBJECT.
Proof.
  intros row self.
  destruct (expiring_task_semaphore_blocks_equivalent_runs
              None mock_task [row] now self) as (_ & _ & Hsingle).
  destruct (Hsingle row) as (Hraise & Hstatus & _).
  - repeat split; try reflexivity.
    + by intros [[=]|[[=]|[]%elem_of_nil]%elem_of_cons]%elem_of_cons.
    + by vm_compute.
    + by vm_compute.
  - split; [exact Hraise|]. apply Hstatus.
    apply list_elem_of_further, list_elem_of_here.
Defined.

(** ** Batched fan-out of the associations *)

Lemma div_ceil_0 (b : nat) : 0 < b → div_ceil 0 b = 0.
Proof. intros Hb. unfold div_ceil. apply Nat.div_small. lia. Qed.

Lemma div_ceil_step (n b : nat) :
  0 < b → 0 < n → div_ceil n b = S (div_ceil (n - b) b).
Proof.
  intros Hb Hn. unfold div_ceil. destruct (decide (n ≤ b)%nat) as [Hle|Hgt].
  - replace (n - b) with 0 by lia. rewrite (Nat.div_small (0 + b - 1)) by lia.
    symmetry. apply (Nat.div_unique _ _ _ (n - 1)); lia.
  - replace (n + b - 1) with ((n - b + b - 1) + 1 * b) by lia.
    rewrite Nat.div_add by lia. lia.
Qed.

Section batches.

Context {A : Type}.

Lemma batch_go_spec (batch_size fuel : nat) (l : list A) :
  0 < batch_size → (length l ≤ fuel)%nat →
  concat (batch_go fuel batch_size l) = l
  ∧ Forall (λ b, (0 < length b ≤ batch_size)%nat) (batch_go fuel batch_size l)
  ∧ length (batch_go fuel batch_size l) = div_ceil (length l) batch_size.
Proof.
  intros Hb. revert l. induction fuel as [|fuel IH]; intros l Hl.
  - destruct l; [|simpl in Hl; lia]. simpl. by rewrite div_ceil_0.
  - destruct l as [|x l]; [simpl; by rewrite div_ceil_0|].
    remember (x :: l) as xs eqn:Hxs.
    assert (Hpos : 0 < length xs) by (rewrite Hxs; simpl; lia).
    replace (batch_go (S fuel) batch_size xs)
      with (take batch_size xs :: batch_go fuel batch_size (drop batch_size xs))
      by (by rewrite Hxs).
    destruct (IH (drop batch_size xs)) as (Hconcat & Hsizes & Hcount).
    { rewrite length_drop. lia. }
    split; [|split].
    + simpl. by rewrite Hconcat, take_drop.
    + constructor; [|done]. rewrite length_take. lia.
    + simpl. rewrite Hcount, length_drop.
      by rewrite (div_ceil_step (length xs)) by lia.
Qed.

(** With a positive batch size, [batch] cuts a list into consecutive,
    non-empty groups of at most that size. *)
Lemma batch_spec (batch_size : nat) (l : list A) :
  0 < batch_size →
  concat (batch batch_size l) = l
  ∧ Forall (λ b, (0 < length b ≤ batch_size)%nat) (batch batch_size l)
  ∧ length (batch batch_size l) = div_ceil (length l) batch_size.
Proof. intros Hb. by apply batch_go_spec. Qed.

End batches.

Lemma sorted_spec (uuids : gset string) :
  Sorted String.le (sorted uuids)
  ∧ sorted uuids ≡ₚ elements uuids
  ∧ length (sorted uuids) = size uuids.
Proof.
  unfold sorted. split; [apply Sorted_merge_sort, _|].
  split; [apply merge_sort_Permutation|].
  by rewrite merge_sort_Permutation.
Qed.

(** C6.  For an association kind and a batch size [B] of at least one, the
    fan-out sorts the UUIDs of the kind in lexicographic order, cuts the
    sorted list into consecutive groups of at most [B], and emits one
    object per group, numbered from 0 in order: [ceil(n / B)] objects for
    [n] UUIDs, and none for a kind without UUIDs. *)
Theorem batched_metadata_fan_out (object_id key : string) (k : kind)
    (batch_size : nat) (uuids : gset string) :
  0 < batch_size →
  let objects := _batched_metadata object_id key k batch_size uuids in
  ∃ batches : list (list string),
    Sorted String.le (concat batches)
    ∧ concat batches ≡ₚ elements uuids
    ∧ Forall (λ b, (0 < length b ≤ batch_size)%nat) batches
    ∧ length objects = div_ceil (size uuids) batch_size
    ∧ length batches = length objects
    ∧ (∀ i b, batches !! i = Some b →
         objects !! i
         = Some (VDict [("key", VStr key);
                        ("objectID", VStr (batch_object_id object_id k i));
                        (kind_field k, VList (VStr <$> b))]))
    ∧ (size uuids = 0 → objects = []).
Proof.
  intros Hb objects. unfold objects, _batched_metadata.
  destruct (sorted_spec uuids) as (Hsorted & Hperm & Hlen).
  destruct (batch_spec batch_size (sorted uuids) Hb) as (Hconcat & Hsizes & Hcount).
  exists (batch batch_size (sorted uuids)).
  rewrite Hconcat, length_imap, Hcount, Hlen.
  repeat split; try done.
  - intros i b Hi. by rewrite list_lookup_imap, Hi.
  - intros Hempty. apply nil_length_inv.
    by rewrite length_imap, Hcount, Hlen, Hempty, div_ceil_0.
Qed.

(** The fan-out of [test_index_algolia_with_batched_uuids] and of the
    default batch size, on three UUIDs given out of order. *)
Example batched_metadata_three_uuids :
  _batched_metadata "course-u" "fakeX" Catalog 1 {[ "c"; "a"; "b" ]}
  = [VDict [("key", VStr "fakeX"); ("objectID", VStr "course-u-catalog-uuids-0");
            ("enterprise_catalog_uuids", VList [VStr "a"])];
     VDict [("key", VStr "fakeX"); ("objectID", VStr "course-u-catalog-uuids-1");
            ("enterprise_catalog_uuids", VList [VStr "b"])];
     VDict [("key", VStr "fakeX"); ("objectID", VStr "course-u-catalog-uuids-2");
            ("enterprise_catalog_uuids", VList [VStr "c"])]]
  ∧ _batched_metadata "course-u" "fakeX" Catalog ALGOLIA_UUID_BATCH_SIZE
      {[ "c"; "a"; "b" ]}
    = [VDict [("key", VStr "fakeX"); ("objectID", VStr "course-u-catalog-uuids-0");
              ("enterprise_catalog_uuids", VList [VStr "a"; VStr "b"; VStr "c"])]]
  ∧ _batched_metadata "course-u" "fakeX" Catalog ALGOLIA_UUID_BATCH_SIZE ∅ = [].
Proof. by vm_compute. Qed.

Lemma batched_metadata_fan_out_witness :
  length (_batched_metadata "course-u" "fakeX" Customer 2 {[ "c"; "a"; "b" ]})
  = div_ceil 3 2.
Proof.
  destruct (batched_metadata_fan_out "course-u" "fakeX" Customer 2
              {[ "c"; "a"; "b" ]}) as (batches & _ & _ & _ & Hcount & _).
  - lia.
  - exact Hcount.
Defined.

(** *** The objects of one course *)

Lemma batched_metadata_elem_of (object_id key : string) (k : kind)
    (batch_size : nat) (uuids : gset string) (obj : value) :
  obj ∈ _batched_metadata object_id key k batch_size uuids
  ↔ ∃ i b,
      batch batch_size (sorted uuids) !! i = Some b
      ∧ obj = VDict [("key", VStr key);
                     ("objectID", VStr (batch_object_id object_id k i));
                     (kind_field k, VList (VStr <$> b))].
Proof.
  unfold _batched_metadata. rewrite list_elem_of_lookup.
  setoid_rewrite list_lookup_imap. split.
  - intros (i & Hi). destruct (batch _ _ !! i) as [b|] eqn:Hb; [|done].
    injection Hi as <-. by exists i, b.
  - intros (i & b & Hb & ->). exists i. by rewrite Hb.
Qed.

Lemma populated_batch_object (key id : string) (k k' : kind) (b : list string) :
  populated (VDict [("key", VStr key); ("objectID", VStr id);
                    (kind_field k, VList (VStr <$> b))]) k'
  ↔ k' = k.
Proof.
  unfold populated. split.
  - by destruct k, k'; simpl; intros H.
  - intros ->. by destruct k.
Qed.

(** C4, as amended.  For a course whose document carries a non-empty
    [uuid], the fan-out objects are exactly, for each association kind [K]
    and each batch index [i] below the number of batches of that kind, the
    object whose identifier is [course-{uuid}-{K}-uuids-{i}], built on the
    uuid of the course itself; each carries the content key of the course
    and the association field of its kind, and no other association
    field. *)
Theorem course_objects_identifiers (batch_size : nat)
    (course_metadata : ContentMetadata) (associations : AssociationSet)
    (u : string) :
  0 < batch_size →
  course_uuid course_metadata = Some u → u ≠ EmptyString →
  ∀ obj,
    obj ∈ course_objects batch_size course_metadata associations
    ↔ ∃ k i b,
        i < div_ceil (size (uuids_of k associations)) batch_size
        ∧ batch batch_size (sorted (uuids_of k associations)) !! i = Some b
        ∧ obj = VDict [("key", VStr (content_key course_metadata));
                       ("objectID",
                        VStr ("course-" +:+ u +:+ "-" +:+ kind_name k
                              +:+ "-uuids-" +:+ pretty i));
                       (kind_field k, VList (VStr <$> b))]
        ∧ field obj "key" = VStr (content_key course_metadata)
        ∧ (∀ k', populated obj k' ↔ k' = k).
Proof.
  intros Hb Hu Hne obj. unfold course_objects. rewrite Hu.
  assert (Hid : default "None" (get_algolia_object_id (Some u)) = "course-" +:+ u).
  { destruct u; [done | reflexivity]. }
  rewrite Hid, !elem_of_app, !batched_metadata_elem_of.
  assert (Hshape : ∀ k i b,
            batch batch_size (sorted (uuids_of k associations)) !! i = Some b →
            i < div_ceil (size (uuids_of k associations)) batch_size).
  { intros k i b Hi. apply lookup_lt_Some in Hi.
    destruct (batch_spec batch_size (sorted (uuids_of k associations)) Hb)
      as (_ & _ & Hcount).
    destruct (sorted_spec (uuids_of k associations)) as (_ & _ & Hlen).
    by rewrite Hcount, Hlen in Hi. }
  split.
  - intros [(i & b & Hi & ->)|[(i & b & Hi & ->)|(i & b & Hi & ->)]];
      [exists Catalog | exists Customer | exists CatalogQuery];
      exists i, b; (split; [by eapply Hshape|]); (split; [done|]);
      (split; [reflexivity|]); (split; [reflexivity|]);
      intros k'; apply populated_batch_object.
  - intros (k & i & b & _ & Hi & -> & _).
    destruct k; [left | right; left | right; right]; by exists i, b.
Qed.

(** C4 fails as stated: the identifiers are built on the uuid of the
    course, not on the uuid of its advertised run. *)
Lemma object_id_uses_course_uuid :
  advertised_run (json_metadata published_course)
    (VDict [("uuid", VStr "run-uuid"); ("status", VStr "published");
            ("is_enrollable", VBool true); ("is_marketable", VBool true)])
  ∧ (λ obj, field obj "objectID")
      <$> course_objects ALGOLIA_UUID_BATCH_SIZE published_course
            (memberships "fakeX")
    = [VStr "course-course-uuid-catalog-uuids-0";
       VStr "course-course-uuid-customer-uuids-0";
       VStr "course-course-uuid-catalog-query-uuids-0"]
  ∧ VStr "course-run-uuid-catalog-uuids-0"
    ∉ (λ obj, field obj "objectID")
        <$> course_objects ALGOLIA_UUID_BATCH_SIZE published_course
              (memberships "fakeX").
Proof.
  split; [|split].
  - exists [], []. split; [|split; [reflexivity | constructor]].
    eexists. split; [reflexivity|]. split; [reflexivity|].
    constructor; [by eexists | constructor].
  - by vm_compute.
  - by vm_compute; intros [[=]|[[=]|[[=]|[]%elem_of_nil]%elem_of_cons]%elem_of_cons]%elem_of_cons.
Qed.

Lemma course_objects_identifiers_witness :
  VDict [("key", VStr "fakeX");
         ("objectID", VStr "course-course-uuid-customer-uuids-1");
         ("enterprise_customer_uuids", VList [VStr "customer-2"])]
  ∈ course_objects 1 published_course (memberships "fakeX").
Proof.
  apply (course_objects_identifiers 1 published_course (memberships "fakeX")
           "course-uuid"); [lia | reflexivity | done |].
  exists Customer, 1, ["customer-2"].
  split; [vm_compute; lia|]. split; [by vm_compute|]. split; [by vm_compute|].
  split; [reflexivity|]. intros k'.
  apply (populated_batch_object "fakeX" "course-course-uuid-customer-uuids-1"
           Customer k' ["customer-2"]).
Defined.

(** ** The reindexing cycle *)
Section cycle.

Variable is_course_run_active : value → result bool.
Variable associations_of : string → AssociationSet.
Variable batch_size : nat.

Local Abbreviation should_index := (_should_index_course is_course_run_active).
Local Abbreviation partition := (partition_course_keys_for_indexing is_course_run_active).
Local Abbreviation step := (index_course associations_of batch_size).
Local Abbreviation cycle :=
  (index_enterprise_catalog_courses_in_algolia_task
     is_course_run_active associations_of batch_size).
Local Abbreviation objects_of :=
  (λ c, course_objects batch_size c (associations_of (content_key c))).

Lemma index_course_missing (c : ContentMetadata) (objects : list value) (env : Env) :
  content_key c ∉ recently_indexed env →
  step (objects, env) c
  = (objects ++ objects_of c,
     {| recently_indexed := {[ content_key c ]} ∪ recently_indexed env;
        was_recently_indexed_calls := was_recently_indexed_calls env ++ [content_key c];
        replace_all_objects_calls := replace_all_objects_calls env |}).
Proof. intros H. unfold index_course. by rewrite bool_decide_false. Qed.

Lemma index_course_present (c : ContentMetadata) (objects : list value) (env : Env) :
  content_key c ∈ recently_indexed env →
  step (objects, env) c
  = (objects,
     {| recently_indexed := recently_indexed env;
        was_recently_indexed_calls := was_recently_indexed_calls env ++ [content_key c];
        replace_all_objects_calls := replace_all_objects_calls env |}).
Proof. intros H. unfold index_course. by rewrite bool_decide_true. Qed.

(** A run through courses none of which is in the cache: every course is
    asked for once, emits its objects and is marked. *)
Lemma index_courses_all_missing (courses : list ContentMetadata)
    (objects : list value) (env : Env) :
  NoDup (content_key <$> courses) →
  Forall (λ c, content_key c ∉ recently_indexed env) courses →
  fold_left step courses (objects, env)
  = (objects ++ courses ≫= objects_of,
     {| recently_indexed :=
          list_to_set (content_key <$> courses) ∪ recently_indexed env;
        was_recently_indexed_calls :=
          was_recently_indexed_calls env ++ (content_key <$> courses);
        replace_all_objects_calls := replace_all_objects_calls env |}).
Proof.
  revert objects env. induction courses as [|c courses IH]; intros objects env.
  - intros _ _. simpl. rewrite !app_nil_r.
    rewrite (left_id_L ∅ (∪)). by destruct env.
  - rewrite fmap_cons, NoDup_cons, Forall_cons. intros [Hc Hnodup] [Hmiss Hrest].
    change (fold_left step (c :: courses) (objects, env))
      with (fold_left step courses (step (objects, env) c)).
    rewrite index_course_missing by done.
    rewrite IH; [|done|].
    + simpl. f_equal; [by rewrite <- app_assoc|].
      f_equal; [set_solver | by rewrite <- app_assoc].
    + apply Forall_forall. intros c' Hin. simpl.
      rewrite Forall_forall in Hrest. specialize (Hrest c' Hin).
      assert (content_key c' ≠ content_key c).
      { intros Heq. apply Hc. rewrite <- Heq. by apply list_elem_of_fmap_2. }
      set_solver.
Qed.

(** A run through courses all of which are in the cache: every course is
    asked for once and skipped. *)
Lemma index_courses_all_present (courses : list ContentMetadata)
    (objects : list value) (env : Env) :
  Forall (λ c, content_key c ∈ recently_indexed env) courses →
  fold_left step courses (objects, env)
  = (objects,
     {| recently_indexed := recently_indexed env;
        was_recently_indexed_calls :=
          was_recently_indexed_calls env ++ (content_key <$> courses);
        replace_all_objects_calls := replace_all_objects_calls env |}).
Proof.
  revert env. induction courses as [|c courses IH]; intros env.
  - intros _. simpl. rewrite app_nil_r. by destruct env.
  - rewrite Forall_cons. intros [Hc Hrest].
    change (fold_left step (c :: courses) (objects, env))
      with (fold_left step courses (step (objects, env) c)).
    rewrite index_course_present by done.
    rewrite IH by done. simpl. by rewrite <- app_assoc.
Qed.

Lemma filter_ext_elem_of {B} (P Q : B → Prop)
    `{!∀ x, Decision (P x), !∀ x, Decision (Q x)} (l : list B) :
  (∀ x, x ∈ l → P x ↔ Q x) → filter P l = filter Q l.
Proof.
  induction l as [|x l IH]; intros Hext; [done|].
  rewrite !filter_cons.
  assert (Hx : P x ↔ Q x) by (apply Hext, list_elem_of_here).
  rewrite IH by (intros y Hy; apply Hext; by apply list_elem_of_further).
  destruct (decide (P x)), (decide (Q x)); naive_solver.
Qed.

Lemma NoDup_fmap_filter {B C} (f : B → C) (P : B → Prop)
    `{!∀ x, Decision (P x)} (l : list B) :
  NoDup (f <$> l) → NoDup (f <$> filter P l).
Proof.
  induction l as [|x l IH]; [done|].
  rewrite fmap_cons, NoDup_cons, filter_cons. intros [Hx Hl].
  case_decide; [|by apply IH].
  rewrite fmap_cons, NoDup_cons. split; [|by apply IH].
  intros (y & Hy & [_ Hin]%list_elem_of_filter)%list_elem_of_fmap.
  apply Hx. rewrite Hy. by apply list_elem_of_fmap_2.
Qed.

(** With distinct content keys, the courses whose key the partition lists
    as indexable are the courses judged indexable. *)
Lemma indexable_courses (courses : list ContentMetadata) (ix nix : list string) :
  NoDup (content_key <$> courses) →
  partition courses = Ok (ix, nix) →
  filter (λ c, bool_decide (content_key c ∈ ix)) courses
  = filter (λ c, should_index c = Ok true) courses.
Proof.
  intros Hnodup Hp.
  destruct (partition_classified is_course_run_active courses
              (partition_Ok _ _ _ Hp)) as (ix' & nix' & Hp' & _ & _ & Hix & _).
  rewrite Hp in Hp'. injection Hp' as <- <-.
  apply filter_ext_elem_of. intros c Hc.
  rewrite bool_decide_spec, Hix. split.
  - intros (c' & Hc' & Hk & Hb).
    by rewrite <- (NoDup_fmap_eq content_key courses c' c Hnodup Hc' Hc Hk).
  - intros Hb. by exists c.
Qed.

(** C5.  Two cycles in a row over the same courses, the cache keeping its
    entries in between and holding none of the indexable courses at first:
    the first cycle hands [replace_all_objects] the objects of all
    indexable courses, in order, the second hands it the empty list, and
    in each cycle the cache is asked once for each indexable course. *)
Theorem index_task_twice (courses : list ContentMetadata) (env : Env) :
  NoDup (content_key <$> courses) →
  Forall (λ c, is_ok (should_index c) = true) courses →
  let indexable := filter (λ c, should_index c = Ok true) courses in
  Forall (λ c, content_key c ∉ recently_indexed env) indexable →
  ∃ env1 env2,
    cycle courses env = Ok env1
    ∧ cycle courses env1 = Ok env2
    ∧ replace_all_objects_calls env1
      = replace_all_objects_calls env ++ [indexable ≫= objects_of]
    ∧ replace_all_objects_calls env2 = replace_all_objects_calls env1 ++ [[]]
    ∧ was_recently_indexed_calls env1
      = was_recently_indexed_calls env ++ (content_key <$> indexable)
    ∧ was_recently_indexed_calls env2
      = was_recently_indexed_calls env1 ++ (content_key <$> indexable).
Proof.
  intros Hnodup Hok indexable Hmiss.
  destruct (partition_classified is_course_run_active courses Hok)
    as (ix & nix & Hp & _).
  pose proof (indexable_courses courses ix nix Hnodup Hp) as Hfilter.
  fold indexable in Hfilter.
  unfold index_enterprise_catalog_courses_in_algolia_task.
  rewrite Hp. simpl mbind. simpl fst. rewrite Hfilter.
  rewrite index_courses_all_missing;
    [|by apply NoDup_fmap_filter | done].
  eexists. eexists. split; [reflexivity|]. simpl.
  rewrite index_courses_all_present.
  2:{ simpl. apply Forall_forall. intros c Hc.
      apply elem_of_union_l, elem_of_list_to_set. by apply list_elem_of_fmap_2. }
  simpl. by repeat split.
Qed.

End cycle.

(** [test_index_algolia_with_all_uuids]: of the published and the
    unpublished course only the first is indexable; the first cycle submits
    its three objects, the second submits nothing, and the cache is asked
    for the published course once per cycle. *)
Example index_algolia_with_all_uuids :
  let cycle :=
    index_enterprise_catalog_courses_in_algolia_task
      published_enrollable_marketable memberships ALGOLIA_UUID_BATCH_SIZE
      [published_course; unpublished_course] in
  ∃ env1 env2,
    cycle initial_env = Ok env1
    ∧ cycle env1 = Ok env2
    ∧ replace_all_objects_calls env2
      = [[VDict [("key", VStr "fakeX");
                 ("objectID", VStr "course-course-uuid-catalog-uuids-0");
                 ("enterprise_catalog_uuids",
                  VList [VStr "catalog-1"; VStr "catalog-2"])];
          VDict [("key", VStr "fakeX");
                 ("objectID", VStr "course-course-uuid-customer-uuids-0");
                 ("enterprise_customer_uuids",
                  VList [VStr "customer-1"; VStr "customer-2"])];
          VDict [("key", VStr "fakeX");
                 ("objectID", VStr "course-course-uuid-catalog-query-uuids-0");
                 ("enterprise_catalog_query_uuids",
                  VList [VStr "query-1"; VStr "query-2"])]];
         []]
    ∧ was_recently_indexed_calls env2 = ["fakeX"; "fakeX"].
Proof.
  eexists. eexists. split; [by vm_compute|]. split; [by vm_compute|].
  split; by vm_compute.
Qed.

Lemma index_task_twice_witness :
  let cycle :=
    index_enterprise_catalog_courses_in_algolia_task
      published_enrollable_marketable memberships 1
      [published_course; unpublished_course] in
  ∃ env1 env2,
    cycle initial_env = Ok env1
    ∧ cycle env1 = Ok env2
    ∧ replace_all_objects_calls env2 = replace_all_objects_calls env1 ++ [[]]
    ∧ was_recently_indexed_calls env2 = ["fakeX"; "fakeX"].
Proof.
  destruct (index_task_twice published_enrollable_marketable memberships 1
              [published_course; unpublished_course] initial_env)
    as (env1 & env2 & H1 & H2 & _ & Hreplace & Hcalls1 & Hcalls2).
  - apply NoDup_cons. split; [|apply NoDup_singleton].
    by intros [=]%list_elem_of_singleton.
  - by repeat constructor.
  - apply Forall_forall. intros c _. apply not_elem_of_empty.
  - exists env1, env2. split; [exact H1|]. split; [exact H2|].
    split; [exact Hreplace|]. rewrite Hcalls2, Hcalls1. by vm_compute.
Defined.

(** ** Further properties of [algolia_utils.py] *)

(** X1.  [get_algolia_object_id] gives no identifier exactly for a missing
    or empty uuid, prefixes any other uuid with [course-], and gives
    different identifiers to different uuids. *)
Theorem get_algolia_object_id_injective :
  (∀ uuid, get_algolia_object_id uuid = None
           ↔ uuid = None ∨ uuid = Some EmptyString)
  ∧ (∀ u, u ≠ EmptyString →
          get_algolia_object_id (Some u) = Some ("course-" +:+ u))
  ∧ (∀ u v id, get_algolia_object_id u = Some id →
               get_algolia_object_id v = Some id → u = v).
Proof.
  assert (Hsome : ∀ u id, get_algolia_object_id u = Some id →
                          ∃ s, u = Some s ∧ id = "course-" +:+ s).
  { intros [s|] id; [|done]. simpl. destruct (String.eqb s EmptyString); [done|].
    intros [= <-]. by exists s. }
  split; [|split].
  - intros [s|]; simpl; [|by split; [left|]].
    destruct (String.eqb_spec s EmptyString) as [->|Hs].
    + split; [by right | done].
    + split; [done | by intros [?|[=]]].
  - intros u Hu. simpl. by destruct (String.eqb_spec u EmptyString).
  - intros u v id (s & -> & ->)%Hsome (t & -> & Heq)%Hsome.
    f_equal. by apply (inj (String.append "course-")).
Qed.

Lemma get_algolia_object_id_injective_witness :
  get_algolia_object_id (Some "abc") = Some "course-abc"
  ∧ get_algolia_object_id (Some "abc") ≠ get_algolia_object_id (Some "abd").
Proof.
  destruct get_algolia_object_id_injective as (_ & Hprefix & Hinj).
  split; [by apply Hprefix|].
  intros Heq.
  assert (Some "abc" = Some "abd") as [=].
  apply (Hinj _ _ "course-abc"); [by apply Hprefix | rewrite <- Heq; by apply Hprefix].
Defined.

(** *** The advertised run and what is read from it *)

(** X2.  [_get_course_run_by_uuid] returns the first run of [course_runs]
    whose uuid equals the one asked for, and [None] when no run has it; a
    course without a [course_runs] entry has no run, whereas a
    [course_runs] entry that is [None] raises [TypeError], the default of
    [get] standing in only for a missing key. *)
Theorem get_course_run_by_uuid_first_match :
  (∀ course uuid runs,
     course_runs_are course runs →
     ∃ r, _get_course_run_by_uuid course uuid = Ok r
          ∧ ((r = VNone ∧ Forall (λ run, ¬ has_uuid uuid run) runs)
             ∨ ∃ before after,
                 runs = before ++ r :: after
                 ∧ has_uuid uuid r
                 ∧ Forall (λ run, ¬ has_uuid uuid run) before))
  ∧ (∀ doc uuid, assoc "course_runs" doc = None →
                 _get_course_run_by_uuid (VDict doc) uuid = Ok VNone)
  ∧ (∀ doc uuid, assoc "course_runs" doc = Some VNone →
                 _get_course_run_by_uuid (VDict doc) uuid = Raise TypeError).
Proof.
  split; [|split].
  - intros course uuid runs Hruns.
    rewrite (get_course_run_by_uuid_runs _ _ _ Hruns).
    destruct (filter (has_uuid uuid) runs) as [|r rest] eqn:Hfilter.
    + exists VNone. split; [done|]. left. split; [done|].
      by apply (filter_nil_inv (has_uuid uuid)).
    + exists r. split; [done|]. right.
      by apply (filter_head_inv (has_uuid uuid)) in Hfilter.
  - intros doc uuid Hdoc. unfold _get_course_run_by_uuid. simpl. by rewrite Hdoc.
  - intros doc uuid Hdoc. unfold _get_course_run_by_uuid. simpl. by rewrite Hdoc.
Qed.

Lemma get_course_run_by_uuid_first_match_witness :
  ∃ r, _get_course_run_by_uuid (json_metadata published_course) (VStr "run-uuid")
       = Ok r
       ∧ r ≠ VNone.
Proof.
  destruct get_course_run_by_uuid_first_match as (Hfirst & _ & _).
  destruct (Hfirst (json_metadata published_course) (VStr "run-uuid")
              [VDict [("uuid", VStr "run-uuid"); ("status", VStr "published");
                      ("is_enrollable", VBool true); ("is_marketable", VBool true)]])
    as (r & Hr & Hcases).
  - eexists. split; [reflexivity|]. split; [reflexivity|].
    constructor; [by eexists | constructor].
  - exists r. split; [exact Hr|].
    destruct Hcases as [[_ Hnone]|(before & after & Hruns & Hmatch & _)].
    + apply Forall_cons in Hnone as [Hnone _]. by destruct Hnone.
    + intros ->. by destruct Hmatch.
Defined.

(** X3.  [get_course_language] is the language facet name of the
    advertised run, and [None] for a course without advertised run. *)
Theorem get_course_language_of_advertised_run (course : value) :
  (∀ run, advertised_run course run →
          get_course_language course
          = Ok (field run "content_language_search_facet_name"))
  ∧ (no_advertised_run course → get_course_language course = Ok VNone).
Proof.
  split.
  - intros run Hadv.
    pose proof Hadv as (before & after & (doc & -> & _ & Hdicts) & _ & _).
    pose proof (get_course_run_by_uuid_advertised _ _ Hadv) as Hrun.
    simpl in Hrun. unfold get_course_language. rewrite py_get_dict.
    simpl mbind at 1. rewrite Hrun. simpl mbind at 1.
    apply Forall_app in Hdicts as [_ Hdicts].
    apply Forall_cons in Hdicts as [[kvs ->] _].
    by destruct kvs.
  - intros Hnone. pose proof Hnone as (runs & (doc & -> & _) & _).
    pose proof (get_course_run_by_uuid_none _ Hnone) as Hrun.
    simpl in Hrun. unfold get_course_language. rewrite py_get_dict.
    simpl mbind at 1. by rewrite Hrun.
Qed.

(** X4.  [get_advertised_course_run] keeps of the advertised run its
    [key], [pacing_type], [start] and [end] and nothing else, and is
    [None] for a course without advertised run. *)
Theorem get_advertised_course_run_subset (course : value) :
  (∀ run, advertised_run course run →
          get_advertised_course_run course = Ok (advertised_subset run))
  ∧ (no_advertised_run course → get_advertised_course_run course = Ok VNone).
Proof.
  split.
  - intros run Hadv.
    pose proof Hadv as (before & after & (doc & -> & _ & Hdicts) & _ & _).
    pose proof (get_course_run_by_uuid_advertised _ _ Hadv) as Hrun.
    simpl in Hrun. unfold get_advertised_course_run. rewrite py_get_dict.
    simpl mbind at 1. rewrite Hrun. simpl mbind at 1.
    apply Forall_app in Hdicts as [_ Hdicts].
    by apply Forall_cons in Hdicts as [[kvs ->] _].
  - intros Hnone. pose proof Hnone as (runs & (doc & -> & _) & _).
    pose proof (get_course_run_by_uuid_none _ Hnone) as Hrun.
    simpl in Hrun. unfold get_advertised_course_run. rewrite py_get_dict.
    simpl mbind at 1. by rewrite Hrun.
Qed.

Lemma get_course_language_of_advertised_run_witness :
  get_course_language
    (VDict [("course_runs",
             VList [VDict [("uuid", VStr "run-uuid");
                           ("content_language_search_facet_name", VStr "English")]]);
            ("advertised_course_run_uuid", VStr "run-uuid")])
  = Ok (VStr "English").
Proof.
  apply (proj1 (get_course_language_of_advertised_run _)
           (VDict [("uuid", VStr "run-uuid");
                   ("content_language_search_facet_name", VStr "English")])).
  exists [], []. split; [|split; [reflexivity | constructor]].
  eexists. split; [reflexivity|]. split; [reflexivity|].
  constructor; [by eexists | constructor].
Defined.

Lemma get_advertised_course_run_subset_witness :
  get_advertised_course_run
    (VDict [("course_runs",
             VList [VDict [("key", VStr "course-v1:org+course+1T2021");
                           ("uuid", VStr "run-uuid");
                           ("pacing_type", VStr "instructor_paced");
                           ("start", VStr "2013-10-16T14:00:00Z");
                           ("end", VStr "2014-10-16T14:00:00Z")]]);
            ("advertised_course_run_uuid", VStr "run-uuid")])
  = Ok (VDict [("key", VStr "course-v1:org+course+1T2021");
               ("pacing_type", VStr "instructor_paced");
               ("start", VStr "2013-10-16T14:00:00Z");
               ("end", VStr "2014-10-16T14:00:00Z")]).
Proof.
  apply (proj1 (get_advertised_course_run_subset _)
           (VDict [("key", VStr "course-v1:org+course+1T2021");
                   ("uuid", VStr "run-uuid");
                   ("pacing_type", VStr "instructor_paced");
                   ("start", VStr "2013-10-16T14:00:00Z");
                   ("end", VStr "2014-10-16T14:00:00Z")])).
  exists [], []. split; [|split; [reflexivity | constructor]].
  eexists. split; [reflexivity|]. split; [reflexivity|].
  constructor; [by eexists | constructor].
Defined.

(** *** Sets turned into lists *)

Global Instance of_hashable_inj : Inj (=) (=) of_hashable.
Proof. intros [] [] [=]; by subst. Qed.

Lemma list_of_set_spec (s : gset hashable) :
  NoDup (list_of_set s)
  ∧ ∀ v, v ∈ list_of_set s ↔ ∃ h, h ∈ s ∧ v = of_hashable h.
Proof.
  unfold list_of_set. split.
  - apply (NoDup_fmap_2 of_hashable), NoDup_elements.
  - intros v. rewrite list_elem_of_fmap. setoid_rewrite elem_of_elements.
    naive_solver.
Qed.

(** What holds of the accumulator before a loop and is kept by each round
    holds after the loop. *)
Lemma for_each_invariant {B S} (P : S → Prop) (body : S → B → result S)
    (xs : list B) (s s' : S) :
  (∀ s x s1, x ∈ xs → P s → body s x = Ok s1 → P s1) →
  P s → for_each body xs s = Ok s' → P s'.
Proof.
  revert s. induction xs as [|x xs IH]; intros s Hbody Hs; simpl.
  - by intros [= <-].
  - intros (s1 & H1 & Hrest)%bind_Ok. eapply (IH s1); [| |exact Hrest].
    + intros s2 y s3 Hy. apply Hbody. by apply list_elem_of_further.
    + eapply Hbody; [apply list_elem_of_here | exact Hs | exact H1].
Qed.

(** *** Partners *)

(** The body of the loop of [get_course_partners]. *)
Local Abbreviation add_partner :=
  (λ (partners : list value) owner,
     py_get owner "name" ≫= λ partner_name,
     if truthy partner_name then
       py_get owner "logo_image_url" ≫= λ logo,
       mret (partners ++
             [VDict [("name", partner_name); ("logo_image_url", logo)]])
     else mret partners).

Lemma add_partner_step (d : list (string * value)) (acc : list value) :
  add_partner acc (VDict d)
  = Ok (if truthy (field (VDict d) "name")
        then acc ++ [partner_of (VDict d)] else acc).
Proof. simpl. by destruct (truthy _). Qed.

Lemma add_partner_loop (owners : list value) (acc : list value) :
  Forall is_dict owners →
  for_each add_partner owners acc
  = Ok (acc ++ (partner_of <$> filter (λ o, truthy (field o "name") = true) owners)).
Proof.
  intros H. revert acc. induction H as [|o owners [d ->] _ IH]; intros acc.
  - simpl. by rewrite app_nil_r.
  - rewrite for_each_cons, filter_cons, add_partner_step.
    rewrite (bind_Ok_l _ _ _ eq_refl), IH.
    destruct (truthy (field (VDict d) "name")) eqn:Hname.
    + rewrite decide_True by done. by rewrite fmap_cons, <- app_assoc.
    + by rewrite decide_False by done.
Qed.

(** X5.  [get_course_partners] lists, in the order of [owners], one
    partner per owner that has a name, made of the owner's name and logo
    alone; owners without a name are left out, and a course whose
    [owners] is missing, [None] or empty has no partner. *)
Theorem get_course_partners_named_owners
    (doc : list (string * value)) (owners : list value) :
  py_iter (py_or (field (VDict doc) "owners") (VList [])) = Ok owners →
  Forall is_dict owners →
  get_course_partners (VDict doc)
  = Ok (partner_of <$> filter (λ o, truthy (field o "name") = true) owners).
Proof.
  intros Howners Hdicts. unfold get_course_partners.
  rewrite py_get_dict, (bind_Ok_l _ _ _ eq_refl), Howners.
  rewrite (bind_Ok_l _ _ _ eq_refl). by rewrite add_partner_loop.
Qed.

Lemma get_course_partners_named_owners_witness :
  get_course_partners
    (VDict [("owners",
             VList [VDict [("name", VStr "Test Org Name");
                           ("logo_image_url", VStr "https://fake.image1");
                           ("ignored_attr", VNone)];
                    VDict [("logo_image_url", VStr "https://fake.image3")];
                    VDict [("name", VStr "Another Org Name");
                           ("logo_image_url", VStr "https://fake.image2");
                           ("ignored_attr", VNone)]])])
  = Ok [VDict [("name", VStr "Test Org Name");
               ("logo_image_url", VStr "https://fake.image1")];
        VDict [("name", VStr "Another Org Name");
               ("logo_image_url", VStr "https://fake.image2")]].
Proof.
  set (owners := [VDict [("name", VStr "Test Org Name");
                         ("logo_image_url", VStr "https://fake.image1");
                         ("ignored_attr", VNone)];
                  VDict [("logo_image_url", VStr "https://fake.image3")];
                  VDict [("name", VStr "Another Org Name");
                         ("logo_image_url", VStr "https://fake.image2");
                         ("ignored_attr", VNone)]]).
  assert (Hdicts : Forall is_dict owners) by (repeat constructor; by eexists).
  exact (get_course_partners_named_owners
           [("owners", VList owners)] owners eq_refl Hdicts).
Defined.

(** *** Program types and titles *)

(** The body of the loop of [_get_course_program_field]. *)
Local Abbreviation add_program_value :=
  (λ (field_name : string) (acc : gset hashable) program,
     py_get program field_name ≫= λ v,
     if truthy v then to_hashable v ≫= λ h, mret ({[ h ]} ∪ acc) else mret acc).

Lemma add_program_value_step (f : string) (d : list (string * value))
    (acc : gset hashable) :
  text_or_none (field (VDict d) f) →
  add_program_value f acc (VDict d)
  = Ok (match field (VDict d) f with
        | VStr (String c s) => {[ HStr (String c s) ]} ∪ acc
        | _ => acc
        end).
Proof.
  intros Htext. cbv beta. rewrite py_get_dict, (bind_Ok_l _ _ _ eq_refl).
  destruct (field (VDict d) f) as [| | |[|c s]| |]; try done;
    by destruct Htext.
Qed.

Lemma add_program_value_elem_of (v : value) (acc : gset hashable) (h : hashable) :
  h ∈ match v with
      | VStr (String c s) => {[ HStr (String c s) ]} ∪ acc
      | _ => acc
      end
  ↔ h ∈ acc ∨ ∃ s, h = HStr s ∧ s ≠ EmptyString ∧ v = VStr s.
Proof.
  destruct v as [| | |[|c s]| |];
    rewrite ?elem_of_union, ?elem_of_singleton; naive_solver.
Qed.

Lemma add_program_value_loop (f : string) (programs : list value)
    (acc : gset hashable) :
  Forall (λ p, is_dict p ∧ text_or_none (field p f)) programs →
  ∃ values,
    for_each (add_program_value f) programs acc = Ok values
    ∧ ∀ h, h ∈ values
           ↔ h ∈ acc
             ∨ ∃ s, h = HStr s ∧ s ≠ EmptyString
                    ∧ ∃ p, p ∈ programs ∧ field p f = VStr s.
Proof.
  intros H. revert acc. induction H as [|p programs [[d ->] Htext] _ IH]; intros acc.
  - exists acc. split; [done|]. intros h. split; [by left|].
    by intros [?|(s & _ & _ & p & ?%elem_of_nil & _)].
  - rewrite for_each_cons, (add_program_value_step f d acc Htext).
    rewrite (bind_Ok_l _ _ _ eq_refl).
    edestruct IH as (values & -> & Hvalues). exists values. split; [done|].
    intros h. rewrite Hvalues, add_program_value_elem_of.
    setoid_rewrite elem_of_cons. naive_solver.
Qed.

(** X6.  [_get_course_program_field], hence [get_course_program_types] and
    [get_course_program_titles]: over programs that are mappings whose
    field is a string or missing, the result lists each non-empty value of
    the field once and nothing else; empty and missing values are left
    out. *)
Theorem get_course_program_field_values
    (doc : list (string * value)) (f : string) (programs : list value) :
  py_iter (py_or (field (VDict doc) "programs") (VList [])) = Ok programs →
  Forall (λ p, is_dict p ∧ text_or_none (field p f)) programs →
  ∃ values,
    _get_course_program_field (VDict doc) f = Ok values
    ∧ NoDup values
    ∧ ∀ v, v ∈ values
           ↔ ∃ s, v = VStr s ∧ s ≠ EmptyString
                  ∧ ∃ p, p ∈ programs ∧ field p f = VStr s.
Proof.
  intros Hprograms Hshape. unfold _get_course_program_field.
  rewrite py_get_dict, (bind_Ok_l _ _ _ eq_refl), Hprograms.
  rewrite (bind_Ok_l _ _ _ eq_refl).
  destruct (add_program_value_loop f programs ∅ Hshape) as (values & -> & Hvalues).
  exists (list_of_set values). split; [done|].
  destruct (list_of_set_spec values) as [Hnodup Hin]. split; [done|].
  intros v. rewrite Hin. setoid_rewrite Hvalues. split.
  - intros (h & [?%elem_of_empty|(s & -> & Hs & Hp)] & ->); [done|]. by exists s.
  - intros (s & -> & Hs & Hp). exists (HStr s). split; [|done]. right. by exists s.
Qed.

Lemma get_course_program_field_values_witness :
  ∃ values,
    get_course_program_types
      (VDict [("programs",
               VList [VDict [("type", VStr "Masters"); ("title", VStr "Yes")];
                      VDict [("type", VStr EmptyString)];
                      VDict [("title", VStr "No type")];
                      VDict [("type", VStr "Masters")]])])
    = Ok values
    ∧ NoDup values
    ∧ VStr "Masters" ∈ values.
Proof.
  set (programs := [VDict [("type", VStr "Masters"); ("title", VStr "Yes")];
                    VDict [("type", VStr EmptyString)];
                    VDict [("title", VStr "No type")];
                    VDict [("type", VStr "Masters")]]).
  destruct (get_course_program_field_values
              [("programs", VList programs)] "type" programs)
    as (values & Hvalues & Hnodup & Hin).
  - reflexivity.
  - repeat (constructor;
            [split; [by eexists | unfold text_or_none; simpl; auto] |]).
    constructor.
  - exists values. split; [exact Hvalues|]. split; [exact Hnodup|].
    apply Hin. exists "Masters". split; [done|]. split; [done|].
    eexists. split; [apply list_elem_of_here | reflexivity].
Defined.

(** *** Skill names *)

(** The body of the loop of [get_course_skill_names]. *)
Local Abbreviation add_skill_name :=
  (λ (acc : gset hashable) name,
     to_hashable name ≫= λ h, mret ({[ h ]} ∪ acc)).

Lemma add_skill_name_loop (names : list value) (acc : gset hashable) :
  Forall (λ v, is_str v = true) names →
  ∃ s, for_each add_skill_name names acc = Ok s
       ∧ ∀ h, h ∈ s ↔ h ∈ acc ∨ of_hashable h ∈ names.
Proof.
  intros H. revert acc. induction H as [|v names Hv _ IH]; intros acc.
  - exists acc. split; [done|]. intros h. split; [by left|].
    by intros [?|?%elem_of_nil].
  - destruct v as [| | |name| |]; try done.
    rewrite for_each_cons. cbv beta. simpl to_hashable.
    rewrite !(bind_Ok_l _ _ _ eq_refl).
    edestruct IH as (s & -> & Hs). exists s. split; [done|].
    intros h. rewrite Hs, elem_of_union, elem_of_singleton, elem_of_cons.
    split; [|destruct h; naive_solver]. naive_solver.
Qed.

Lemma add_skill_name_unhashable (names : list value) (acc : gset hashable) :
  Exists (λ v, is_ok (to_hashable v) = false) names →
  for_each add_skill_name names acc = Raise TypeError.
Proof.
  intros H. revert acc. induction H as [v names Hv|v names _ IH]; intros acc.
  - rewrite for_each_cons. by destruct v.
  - rewrite for_each_cons. cbv beta.
    destruct (to_hashable v) as [h|[]] eqn:Hh; try by destruct v.
    rewrite !(bind_Ok_l _ _ _ eq_refl). apply IH.
Qed.

(** X7.  [get_course_skill_names] removes the duplicates of [skill_names]:
    over names that are strings the result holds each of them once and
    nothing else; a name that cannot be hashed, a list or a mapping, makes
    it raise [TypeError]. *)
Theorem get_course_skill_names_deduplicated
    (doc : list (string * value)) (names : list value) :
  py_iter (py_or (field (VDict doc) "skill_names") (VList [])) = Ok names →
  (Forall (λ v, is_str v = true) names →
   ∃ skill_names,
     get_course_skill_names (VDict doc) = Ok skill_names
     ∧ NoDup skill_names
     ∧ ∀ v, v ∈ skill_names ↔ v ∈ names)
  ∧ (Exists (λ v, is_ok (to_hashable v) = false) names →
     get_course_skill_names (VDict doc) = Raise TypeError).
Proof.
  intros Hnames. unfold get_course_skill_names.
  rewrite py_get_dict, (bind_Ok_l _ _ _ eq_refl), Hnames.
  rewrite (bind_Ok_l _ _ _ eq_refl). split.
  - intros Hstr.
    destruct (add_skill_name_loop names ∅ Hstr) as (s & -> & Hs).
    exists (list_of_set s). split; [done|].
    destruct (list_of_set_spec s) as [Hnodup Hin]. split; [done|].
    intros v. rewrite Hin. setoid_rewrite Hs. split.
    + by intros (h & [?%elem_of_empty|?] & ->).
    + intros Hv. rewrite Forall_forall in Hstr. specialize (Hstr v Hv).
      destruct v as [| | |name| |]; try done.
      exists (HStr name). split; [by right | done].
  - intros Hbad. by rewrite add_skill_name_unhashable.
Qed.

Lemma get_course_skill_names_deduplicated_witness :
  ∃ skill_names,
    get_course_skill_names
      (VDict [("skill_names", VList [VStr "Python"; VStr "Programming"; VStr "Python"])])
    = Ok skill_names
    ∧ NoDup skill_names
    ∧ VStr "Programming" ∈ skill_names.
Proof.
  set (names := [VStr "Python"; VStr "Programming"; VStr "Python"]).
  destruct (get_course_skill_names_deduplicated
              [("skill_names", VList names)] names eq_refl) as [Hstrings _].
  destruct Hstrings as (skill_names & Hresult & Hnodup & Hin).
  - by repeat constructor.
  - exists skill_names. split; [exact Hresult|]. split; [exact Hnodup|].
    apply Hin. apply list_elem_of_further, list_elem_of_here.
Defined.

(** *** The range of the availability facet *)

(** X8.  Whatever the course, when [get_course_availability] returns, its
    labels are among [Available Now], [Upcoming] and [Archived], each at
    most once, so there are at most three of them. *)
Theorem get_course_availability_range
    (is_course_run_active : value → result bool)
    (course : value) (labels : list string) :
  get_course_availability is_course_run_active course = Ok labels →
  NoDup labels
  ∧ (∀ lbl, lbl ∈ labels → lbl ∈ AVAILABILITY_LABELS)
  ∧ (length labels ≤ 3)%nat.
Proof.
  intros H. unfold get_course_availability in H.
  apply bind_Ok in H as (runs_v & _ & H).
  apply bind_Ok in H as (runs & _ & H).
  apply bind_Ok in H as (active & _ & H).
  apply bind_Ok in H as (s & Hloop & H). injection H as <-.
  assert (Hrange : ∀ lbl, lbl ∈ s → lbl ∈ AVAILABILITY_LABELS).
  { eapply (for_each_invariant
              (λ s : gset string, ∀ lbl, lbl ∈ s → lbl ∈ AVAILABILITY_LABELS));
      [|by intros lbl ?%elem_of_empty|exact Hloop].
    intros acc run acc' _ Hacc Hbody lbl.
    apply bind_Ok in Hbody as (a & _ & Hbody).
    apply bind_Ok in Hbody as (code & _ & Hbody). injection Hbody as <-.
    rewrite elem_of_union, elem_of_singleton. intros [->|?]; [|by apply Hacc].
    unfold COURSE_AVAILABILITY_MESSAGES_get, AVAILABILITY_LABELS.
    repeat case_match; set_solver. }
  assert (Hin : ∀ lbl, lbl ∈ elements s → lbl ∈ AVAILABILITY_LABELS).
  { intros lbl. rewrite elem_of_elements. apply Hrange. }
  split; [apply NoDup_elements|]. split; [done|].
  change 3 with (length AVAILABILITY_LABELS).
  apply submseteq_length, NoDup_submseteq; [apply NoDup_elements | done].
Qed.

Lemma get_course_availability_range_witness :
  ∃ labels,
    get_course_availability published_enrollable_marketable
      (availability_case (VStr "Upcoming")) = Ok labels
    ∧ (length labels ≤ 3)%nat.
Proof.
  exists ["Upcoming"]. split; [by vm_compute|].
  eapply (get_course_availability_range published_enrollable_marketable
            (availability_case (VStr "Upcoming"))).
  by vm_compute.
Defined.

(** *** The names of the subjects *)

Lemma add_subject_elem_of (v : value) (acc : gset hashable) :
  subject_entry v →
  ∃ acc',
    add_subject acc v = Ok acc'
    ∧ ∀ h, h ∈ acc'
           ↔ h ∈ acc
             ∨ ∃ s, h = HStr s
                    ∧ (v = VStr s
                       ∨ (s ≠ EmptyString ∧ is_dict v ∧ field v "name" = VStr s)).
Proof.
  intros [Hstr|([d ->] & Hname)].
  - destruct v as [| | |s| |]; try done. eexists. split; [reflexivity|].
    intros h. rewrite elem_of_union, elem_of_singleton.
    split; [|intros [?|(s' & -> & [[= ->]|(_ & [? [=]] & _)])]]; naive_solver.
  - cbv beta. simpl is_str. cbv iota. rewrite py_get_dict, (bind_Ok_l _ _ _ eq_refl).
    assert (Hfalsy : truthy (field (VDict d) "name") = false →
              ∀ s, s ≠ EmptyString → field (VDict d) "name" ≠ VStr s).
    { intros Hf s Hs Heq. rewrite Heq in Hf. by destruct s. }
    destruct (truthy (field (VDict d) "name")) eqn:Ht.
    + destruct Hname as [Hname|?]; [|done].
      destruct (field (VDict d) "name") as [| | |s| |] eqn:Hf; try done.
      eexists. split; [reflexivity|]. intros h.
      rewrite elem_of_union, elem_of_singleton. split.
      * intros [->|?]; [|by left]. right. exists s. split; [done|].
        right. split; [by destruct s|]. split; [by eexists | done].
      * intros [?|(s' & -> & [?|(_ & _ & [= <-])])]; [by right|done|by left].
    + exists acc. split; [done|]. intros h. split; [by left|].
      intros [?|(s' & _ & [?|(Hs' & _ & Heq)])]; [done|done|].
      by destruct (Hfalsy eq_refl s' Hs').
Qed.

Lemma add_subject_loop (subjects : list value) (acc : gset hashable) :
  Forall subject_entry subjects →
  ∃ names,
    for_each add_subject subjects acc = Ok names
    ∧ ∀ h, h ∈ names
           ↔ h ∈ acc
             ∨ ∃ s, h = HStr s
                    ∧ (VStr s ∈ subjects
                       ∨ (s ≠ EmptyString
                          ∧ ∃ v, v ∈ subjects ∧ is_dict v
                                 ∧ field v "name" = VStr s)).
Proof.
  intros H. revert acc. induction H as [|v subjects Hv _ IH]; intros acc.
  - exists acc. split; [done|]. intros h. split; [by left|].
    by intros [?|(s & _ & [?%elem_of_nil|(_ & v & ?%elem_of_nil & _)])].
  - rewrite for_each_cons.
    destruct (add_subject_elem_of v acc Hv) as (acc' & -> & Hacc').
    rewrite (bind_Ok_l _ _ _ eq_refl).
    destruct (IH acc') as (names & -> & Hnames). exists names. split; [done|].
    intros h. rewrite Hnames, Hacc'. setoid_rewrite elem_of_cons. naive_solver.
Qed.

(** X9.  [get_course_subjects], over entries that are strings or mappings
    whose name is a string or blank: the result holds each name once; a
    string is a name of the result exactly when it is a string entry, or
    the non-empty name of a mapping entry; nothing else is in the
    result. *)
Theorem get_course_subjects_names
    (doc : list (string * value)) (subjects : list value) :
  py_iter (py_or (field (VDict doc) "subjects") (VList [])) = Ok subjects →
  Forall subject_entry subjects →
  ∃ names,
    get_course_subjects (VDict doc) = Ok names
    ∧ NoDup names
    ∧ ∀ v, v ∈ names
           ↔ ∃ s, v = VStr s
                  ∧ (VStr s ∈ subjects
                     ∨ (s ≠ EmptyString
                        ∧ ∃ entry, entry ∈ subjects ∧ is_dict entry
                                   ∧ field entry "name" = VStr s)).
Proof.
  intros Hsubjects Hshape. unfold get_course_subjects.
  rewrite py_get_dict, (bind_Ok_l _ _ _ eq_refl), Hsubjects.
  rewrite (bind_Ok_l _ _ _ eq_refl).
  destruct (add_subject_loop subjects ∅ Hshape) as (names & -> & Hnames).
  exists (list_of_set names). split; [done|].
  destruct (list_of_set_spec names) as [Hnodup Hin]. split; [done|].
  intros v. rewrite Hin. setoid_rewrite Hnames. split.
  - intros (h & [?%elem_of_empty|(s & -> & Hs)] & ->); [done|]. by exists s.
  - intros (s & -> & Hs). exists (HStr s). split; [|done]. right. by exists s.
Qed.

Lemma get_course_subjects_names_witness :
  ∃ names,
    get_course_subjects
      (VDict [("subjects", VList [VStr "Communication";
                                  VDict [("name", VStr "Computer Science")];
                                  VDict [("slug", VStr "nameless")]])])
    = Ok names
    ∧ NoDup names
    ∧ VStr "Computer Science" ∈ names.
Proof.
  set (subjects := [VStr "Communication";
                    VDict [("name", VStr "Computer Science")];
                    VDict [("slug", VStr "nameless")]]).
  destruct (get_course_subjects_names [("subjects", VList subjects)] subjects eq_refl)
    as (names & Hnames & Hnodup & Hin).
  - constructor; [by left|].
    constructor; [right; split; [by eexists | by left]|].
    constructor; [right; split; [by eexists | by right]|]. constructor.
  - exists names. split; [exact Hnames|]. split; [exact Hnodup|].
    apply Hin. exists "Computer Science". split; [done|]. right.
    split; [done|]. eexists. split; [apply list_elem_of_further, list_elem_of_here|].
    split; [by eexists | reflexivity].
Defined.

(** ** The projected object *)

(** *** Mappings *)

Lemma assoc_dict_set (k k' : string) (v : value) (kvs : list (string * value)) :
  assoc k (dict_set k' v kvs) = if String.eqb k k' then Some v else assoc k kvs.
Proof.
  induction kvs as [|[k0 v0] kvs IH]; simpl.
  - by destruct (String.eqb k k').
  - destruct (String.eqb_spec k' k0) as [->|Hne]; simpl.
    + by destruct (String.eqb k k0).
    + rewrite IH. destruct (String.eqb_spec k k0) as [->|?]; [|done].
      destruct (String.eqb_spec k0 k'); congruence.
Qed.

Lemma keys_dict_set (k : string) (v : value) (kvs : list (string * value)) :
  keys (dict_set k v kvs) = if decide (k ∈ keys kvs) then keys kvs else keys kvs ++ [k].
Proof.
  unfold keys. induction kvs as [|[k0 v0] kvs IH].
  - case_decide as Hin; [by inversion Hin | reflexivity].
  - cbn [dict_set]. destruct (String.eqb_spec k k0) as [->|Hne].
    + rewrite !fmap_cons. cbn [fst].
      destruct (decide (k0 ∈ k0 :: kvs.*1)) as [_|Hnot]; [done|].
      destruct Hnot. apply list_elem_of_here.
    + rewrite !fmap_cons, IH. cbn [fst].
      destruct (decide (k ∈ kvs.*1)) as [Hin|Hnot];
        destruct (decide (k ∈ k0 :: kvs.*1)) as [Hin'|Hnot']; try done.
      * destruct Hnot'. by apply list_elem_of_further.
      * apply elem_of_cons in Hin' as [?|?]; done.
Qed.

Lemma well_formed_dict_set (k : string) (v : value) (kvs : list (string * value)) :
  well_formed kvs → well_formed (dict_set k v kvs).
Proof.
  unfold well_formed. rewrite keys_dict_set. case_decide; [done|].
  intros Hnodup. apply NoDup_app. split; [done|].
  split; [|apply NoDup_singleton].
  by intros x Hx ->%list_elem_of_singleton.
Qed.

Lemma assoc_None (k : string) (kvs : list (string * value)) :
  assoc k kvs = None ↔ k ∉ keys kvs.
Proof.
  unfold keys. induction kvs as [|[k0 v0] kvs IH]; simpl.
  - split; [by intros _ ?%elem_of_nil | done].
  - rewrite not_elem_of_cons. destruct (String.eqb_spec k k0) as [->|?].
    + split; [done | by intros [? _]].
    + rewrite IH. naive_solver.
Qed.

(** After [update], an entry of [other] is read in place of the entry of
    the mapping, and the other entries are as they were. *)
Lemma assoc_dict_update (k : string) (kvs other : list (string * value)) :
  well_formed other →
  assoc k (dict_update kvs other)
  = match assoc k other with Some v => Some v | None => assoc k kvs end.
Proof.
  unfold dict_update, well_formed, keys.
  revert kvs. induction other as [|[k1 v1] other IH]; intros kvs; [done|].
  rewrite fmap_cons, NoDup_cons. intros [Hk1 Hnodup]. simpl.
  rewrite IH by done. rewrite assoc_dict_set.
  destruct (String.eqb_spec k k1) as [->|Hne]; [|done].
  simpl in Hk1. apply assoc_None in Hk1. by rewrite Hk1.
Qed.

(** *** What [pick] keeps *)

Lemma is_none_spec (v : value) : is_none v = true ↔ v = VNone.
Proof. by destruct v. Qed.

Lemma field_dict_set (k k' : string) (v : value) (kvs : list (string * value)) :
  field (VDict (dict_set k' v kvs)) k
  = if String.eqb k k' then v else field (VDict kvs) k.
Proof.
  change (default VNone (assoc k (dict_set k' v kvs))
          = if String.eqb k k' then v else default VNone (assoc k kvs)).
  rewrite assoc_dict_set. by destruct (String.eqb k k').
Qed.

Lemma pick_loop (searchable : list (string * value)) (fields : list string)
    (acc : list (string * value)) :
  let picked :=
    fold_left
      (λ acc f, let v := field (VDict searchable) f in
                if is_none v then acc else dict_set f v acc)
      fields acc in
  (well_formed acc → well_formed picked)
  ∧ ∀ k, field (VDict picked) k
         = if bool_decide (k ∈ fields) && negb (is_none (field (VDict searchable) k))
           then field (VDict searchable) k
           else field (VDict acc) k.
Proof.
  revert acc. induction fields as [|f fields IH]; intros acc.
  - split; [done|]. intros k. by rewrite bool_decide_eq_false_2 by (by intros ?%elem_of_nil).
  - cbn [fold_left]. cbv zeta.
    destruct (IH (if is_none (field (VDict searchable) f) then acc
                  else dict_set f (field (VDict searchable) f) acc))
      as [Hwf Hfield].
    cbv zeta in Hwf, Hfield. split.
    + intros Hacc. apply Hwf.
      destruct (is_none (field (VDict searchable) f)); [done|].
      by apply well_formed_dict_set.
    + intros k. rewrite Hfield. clear Hwf Hfield.
      destruct (is_none (field (VDict searchable) k)) eqn:Hk.
      { rewrite !andb_false_r. destruct (is_none (field (VDict searchable) f)) eqn:Hf; [done|].
        rewrite field_dict_set.
        destruct (String.eqb_spec k f) as [->|?]; [congruence | done]. }
      rewrite !andb_true_r.
      destruct (decide (k ∈ fields)) as [Hin|Hnot].
      { rewrite !bool_decide_eq_true_2; [done| by apply list_elem_of_further | done]. }
      rewrite (bool_decide_eq_false_2 (k ∈ fields)) by done.
      destruct (decide (k = f)) as [->|Hne].
      * rewrite bool_decide_eq_true_2 by apply list_elem_of_here.
        rewrite Hk. by rewrite field_dict_set, String.eqb_refl.
      * rewrite bool_decide_eq_false_2.
        2:{ by intros [?|?]%elem_of_cons. }
        destruct (is_none (field (VDict searchable) f)); [done|].
        rewrite field_dict_set. by destruct (String.eqb_spec k f).
Qed.

Lemma pick_field (searchable : list (string * value)) (fields : list string)
    (k : string) :
  field (VDict (pick searchable fields)) k
  = if bool_decide (k ∈ fields) then field (VDict searchable) k else VNone.
Proof.
  destruct (pick_loop searchable fields []) as [_ Hfield].
  unfold pick. rewrite Hfield.
  destruct (bool_decide (k ∈ fields)); [|done]. simpl.
  destruct (default VNone (assoc k searchable)); done.
Qed.

Lemma pick_well_formed (searchable : list (string * value)) (fields : list string) :
  well_formed (pick searchable fields).
Proof.
  destruct (pick_loop searchable fields []) as [Hwf _].
  apply Hwf. constructor.
Qed.

(** *** The call as a function of the course document *)

Lemma for_each_pick (searchable : list (string * value)) (fields : list string)
    (acc : list (string * value)) :
  for_each
    (λ (acc : list (string * value)) f,
       field_value ← py_get (VDict searchable) f;
       mret (if is_none field_value then acc else dict_set f field_value acc))
    fields acc
  = Ok (fold_left
          (λ acc f, let v := field (VDict searchable) f in
                    if is_none v then acc else dict_set f v acc)
          fields acc).
Proof.
  revert acc. induction fields as [|f fields IH]; intros acc; [done|].
  rewrite for_each_cons, py_get_dict. cbn [fold_left]. by rewrite <- IH.
Qed.

Lemma St_bind_run {A B} (m : St A) (f : A → St B) (h : gmap loc value) :
  (m ≫= f) h
  = match m h with (Ok a, h') => f a h' | (Raise e, h') => (Raise e, h') end.
Proof. reflexivity. Qed.

(** The call copies the course to an unused location, writes the derived
    fields to the copy and reads the object from it; on an exception the
    copy is left as it was made. *)
Lemma algolia_object_from_course_run
    (is_course_run_active : value → result bool)
    (course : loc) (algolia_fields : list string) (h : gmap loc value) :
  let l' := fresh (dom h) in
  _algolia_object_from_course is_course_run_active course algolia_fields h
  = match searchable_course_of is_course_run_active (h !!! course) with
    | Ok searchable =>
        (Ok (VDict (pick searchable algolia_fields)),
         <[l' := VDict searchable]> (<[l' := h !!! course]> h))
    | Raise e => (Raise e, <[l' := h !!! course]> h)
    end.
Proof.
  intros l'. unfold _algolia_object_from_course, searchable_course_of.
  rewrite St_bind_run. unfold deepcopy. fold l'.
  rewrite St_bind_run. unfold load at 1.
  rewrite lookup_total_insert_eq.
  generalize (h !!! course). intros c.
  set (h1 := <[l' := c]> h).
  assert (Hc : h1 !!! l' = c) by apply lookup_total_insert_eq.
  clearbody h1.
  repeat (rewrite St_bind_run; unfold lift at 1;
          match goal with
          | |- context [match ?r ≫= _ with _ => _ end] =>
              destruct r as [?|?]; [|done]
          end; cbn [mbind result_bind]).
  rewrite St_bind_run. unfold update. rewrite Hc.
  destruct c; try done.
  rewrite St_bind_run. unfold load. rewrite lookup_total_insert_eq.
  rewrite St_bind_run. unfold lift. by rewrite for_each_pick.
Qed.

Lemma algolia_object_from_course_result
    (is_course_run_active : value → result bool)
    (course : loc) (algolia_fields : list string) (h : gmap loc value) :
  (_algolia_object_from_course is_course_run_active course algolia_fields h).1
  = projection_of is_course_run_active (h !!! course) algolia_fields.
Proof.
  rewrite algolia_object_from_course_run. unfold projection_of.
  by destruct (searchable_course_of _ _).
Qed.

Lemma searchable_course_of_Ok (is_course_run_active : value → result bool)
    (course : value) (searchable : list (string * value)) :
  searchable_course_of is_course_run_active course = Ok searchable →
  ∃ doc language availability partners programs program_titles subjects
    card_image_url advertised_course_run skill_names skills,
    course = VDict doc
    ∧ get_course_language course = Ok language
    ∧ get_course_availability is_course_run_active course = Ok availability
    ∧ get_course_partners course = Ok partners
    ∧ get_course_program_types course = Ok programs
    ∧ get_course_program_titles course = Ok program_titles
    ∧ get_course_subjects course = Ok subjects
    ∧ get_course_card_image_url course = Ok card_image_url
    ∧ get_advertised_course_run course = Ok advertised_course_run
    ∧ get_course_skill_names course = Ok skill_names
    ∧ get_course_skills course = Ok skills
    ∧ searchable
      = dict_update doc
          (derived_entries language availability partners programs
             program_titles subjects card_image_url advertised_course_run
             skill_names skills).
Proof.
  unfold searchable_course_of.
  repeat match goal with
         | |- ?r ≫= _ = Ok _ → _ =>
             destruct r as [?|?]; [|done]; cbn [mbind result_bind]
         end.
  destruct course; try done. intros [= <-].
  by repeat eexists.
Qed.

Lemma projection_of_Ok (is_course_run_active : value → result bool)
    (course : value) (fields : list string) (obj : value) :
  projection_of is_course_run_active course fields = Ok obj →
  ∃ searchable,
    searchable_course_of is_course_run_active course = Ok searchable
    ∧ obj = VDict (pick searchable fields).
Proof.
  unfold projection_of.
  destruct (searchable_course_of _ _) as [searchable|]; [|done].
  intros [= <-]. by exists searchable.
Qed.

Lemma elem_of_dict_set (k : string) (v : value) (kvs : list (string * value))
    (kv : string * value) :
  kv ∈ dict_set k v kvs → kv = (k, v) ∨ kv ∈ kvs.
Proof.
  induction kvs as [|[k0 v0] kvs IH]; cbn [dict_set].
  - intros ->%list_elem_of_singleton. by left.
  - destruct (String.eqb_spec k k0) as [->|?].
    + intros [->|?]%elem_of_cons; [by left|].
      right. by apply list_elem_of_further.
    + intros [->|Hin]%elem_of_cons; [right; apply list_elem_of_here|].
      destruct (IH Hin); [by left|]. right. by apply list_elem_of_further.
Qed.

Lemma pick_entries (searchable : list (string * value)) (fields : list string)
    (k : string) (v : value) :
  (k, v) ∈ pick searchable fields → k ∈ fields ∧ v ≠ VNone.
Proof.
  unfold pick.
  assert (Hgen : ∀ acc : list (string * value),
            (k, v) ∈ fold_left
                       (λ acc f, let v := field (VDict searchable) f in
                                 if is_none v then acc else dict_set f v acc)
                       fields acc →
            (k, v) ∈ acc ∨ (k ∈ fields ∧ v ≠ VNone)).
  { induction fields as [|f fields IH]; intros acc; [by left|].
    cbn [fold_left]. cbv zeta. intros Hin. apply IH in Hin.
    destruct Hin as [Hin|[Hin Hv]].
    - destruct (is_none (field (VDict searchable) f)) eqn:Hf; [by left|].
      apply elem_of_dict_set in Hin as [[= -> ->]|?]; [|by left].
      right. split; [apply list_elem_of_here|].
      change (field (VDict searchable) f ≠ VNone).
      intros Hnone%is_none_spec. congruence.
    - right. split; [by apply list_elem_of_further | done]. }
  intros Hin. destruct (Hgen [] Hin) as [?%elem_of_nil|?]; done.
Qed.

Lemma derived_entries_keys language availability partners programs
    program_titles subjects card_image_url advertised_course_run
    skill_names skills :
  keys (derived_entries language availability partners programs
          program_titles subjects card_image_url advertised_course_run
          skill_names skills) = DERIVED_FIELDS.
Proof. reflexivity. Qed.

Lemma DERIVED_FIELDS_NoDup : NoDup DERIVED_FIELDS.
Proof. apply (bool_decide_unpack _). by vm_compute. Qed.

(** After the derived fields are written over a document, a derived field
    reads as written and any other field as in the document. *)
Lemma field_dict_update_derived (doc derived : list (string * value)) (f : string) :
  keys derived = DERIVED_FIELDS →
  field (VDict (dict_update doc derived)) f
  = if bool_decide (f ∈ DERIVED_FIELDS)
    then field (VDict derived) f else field (VDict doc) f.
Proof.
  intros Hkeys.
  change (default VNone (assoc f (dict_update doc derived))
          = if bool_decide (f ∈ DERIVED_FIELDS)
            then default VNone (assoc f derived)
            else default VNone (assoc f doc)).
  rewrite assoc_dict_update
    by (unfold well_formed; rewrite Hkeys; apply DERIVED_FIELDS_NoDup).
  destruct (assoc f derived) as [v|] eqn:Hf.
  - rewrite bool_decide_eq_true_2; [done|]. rewrite <- Hkeys.
    destruct (decide (f ∈ keys derived)) as [?|Hno%assoc_None]; [done|congruence].
  - apply assoc_None in Hf. rewrite Hkeys in Hf.
    by rewrite bool_decide_eq_false_2.
Qed.

Section projection.

Variable is_course_run_active : value → result bool.

Local Abbreviation project := (_algolia_object_from_course is_course_run_active).

(** X10.  The object [_algolia_object_from_course] returns is a mapping
    that names each field at most once, names only fields of the list it
    was given, and holds [None] under none of them. *)
Theorem algolia_object_from_course_allow_list
    (course : loc) (algolia_fields : list string) (h : gmap loc value)
    (obj : value) :
  (project course algolia_fields h).1 = Ok obj →
  ∃ entries,
    obj = VDict entries
    ∧ well_formed entries
    ∧ ∀ k v, (k, v) ∈ entries → k ∈ algolia_fields ∧ v ≠ VNone.
Proof.
  rewrite algolia_object_from_course_result.
  intros (searchable & _ & ->)%projection_of_Ok.
  exists (pick searchable algolia_fields).
  split; [done|]. split; [apply pick_well_formed|].
  intros k v. apply pick_entries.
Qed.

(** X11.  A field of the list that is not one of the ten derived fields
    is copied from the course as it stands there, and a field outside the
    list is absent from the object. *)
Theorem algolia_object_from_course_passes_through
    (course : loc) (algolia_fields : list string) (h : gmap loc value)
    (doc : list (string * value)) (obj : value) :
  h !!! course = VDict doc →
  (project course algolia_fields h).1 = Ok obj →
  ∀ f,
    (f ∈ algolia_fields → f ∉ DERIVED_FIELDS →
     field obj f = field (VDict doc) f)
    ∧ (f ∉ algolia_fields → field obj f = VNone).
Proof.
  intros Hdoc. rewrite algolia_object_from_course_result, Hdoc.
  intros (searchable & Hs & ->)%projection_of_Ok.
  apply searchable_course_of_Ok in Hs
    as (doc' & ? & ? & ? & ? & ? & ? & ? & ? & ? & ? & [= <-] & Hs).
  destruct Hs as (_ & _ & _ & _ & _ & _ & _ & _ & _ & _ & ->).
  intros f. rewrite pick_field. split.
  - intros Hin Hnot. rewrite bool_decide_eq_true_2 by done.
    rewrite field_dict_update_derived by apply derived_entries_keys.
    by rewrite bool_decide_eq_false_2.
  - intros Hnot. by rewrite bool_decide_eq_false_2.
Qed.

(** X12.  A derived field of the list carries the value its getter
    computes from the course, whatever the course holds under that name. *)
Theorem algolia_object_from_course_derived
    (course : loc) (algolia_fields : list string) (h : gmap loc value)
    (obj : value) :
  (project course algolia_fields h).1 = Ok obj →
  ∃ language availability partners programs program_titles subjects
    card_image_url advertised_course_run skill_names skills,
    get_course_language (h !!! course) = Ok language
    ∧ get_course_availability is_course_run_active (h !!! course) = Ok availability
    ∧ get_course_partners (h !!! course) = Ok partners
    ∧ get_course_program_types (h !!! course) = Ok programs
    ∧ get_course_program_titles (h !!! course) = Ok program_titles
    ∧ get_course_subjects (h !!! course) = Ok subjects
    ∧ get_course_card_image_url (h !!! course) = Ok card_image_url
    ∧ get_advertised_course_run (h !!! course) = Ok advertised_course_run
    ∧ get_course_skill_names (h !!! course) = Ok skill_names
    ∧ get_course_skills (h !!! course) = Ok skills
    ∧ ∀ f, f ∈ algolia_fields → f ∈ DERIVED_FIELDS →
           field obj f
           = field (VDict (derived_entries language availability partners
                             programs program_titles subjects card_image_url
                             advertised_course_run skill_names skills)) f.
Proof.
  rewrite algolia_object_from_course_result.
  intros (searchable & Hs & ->)%projection_of_Ok.
  apply searchable_course_of_Ok in Hs
    as (doc & language & availability & partners & programs & program_titles
        & subjects & card_image_url & advertised_course_run & skill_names
        & skills & Hdoc & Hs).
  exists language, availability, partners, programs, program_titles, subjects,
    card_image_url, advertised_course_run, skill_names, skills.
  destruct Hs as (? & ? & ? & ? & ? & ? & ? & ? & ? & ? & ->).
  repeat (split; [done|]).
  intros f Hin Hderived. rewrite pick_field, bool_decide_eq_true_2 by done.
  rewrite field_dict_update_derived by apply derived_entries_keys.
  by rewrite bool_decide_eq_true_2.
Qed.

(** X13.  The outcome of the call, object or exception, depends on the
    content of the course alone: not on where the course lies in the store
    nor on anything else the store holds. *)
Theorem algolia_object_from_course_content_only
    (course1 course2 : loc) (algolia_fields : list string)
    (h1 h2 : gmap loc value) :
  h1 !!! course1 = h2 !!! course2 →
  (project course1 algolia_fields h1).1 = (project course2 algolia_fields h2).1.
Proof.
  intros Heq. by rewrite !algolia_object_from_course_result, Heq.
Qed.

End projection.

Lemma algolia_object_from_course_allow_list_witness :
  ∃ entries,
    titled_object = VDict entries
    ∧ well_formed entries
    ∧ ∀ k v, (k, v) ∈ entries → k ∈ ALGOLIA_FIELDS ∧ v ≠ VNone.
Proof.
  apply (algolia_object_from_course_allow_list
           published_enrollable_marketable 7 ALGOLIA_FIELDS catalogue).
  by vm_compute.
Defined.

Lemma algolia_object_from_course_passes_through_witness :
  field titled_object "title" = VStr "Intro to Knots"
  ∧ field titled_object "internal_notes" = VNone.
Proof.
  assert (Hdoc : catalogue !!! 7 = VDict titled_document) by (by vm_compute).
  assert (Hrun : (_algolia_object_from_course published_enrollable_marketable
                    7 ALGOLIA_FIELDS catalogue).1 = Ok titled_object)
    by (by vm_compute).
  split.
  - apply (proj1 (algolia_object_from_course_passes_through
                    published_enrollable_marketable 7 ALGOLIA_FIELDS catalogue
                    titled_document titled_object Hdoc Hrun "title"));
      apply (bool_decide_unpack _); by vm_compute.
  - apply (proj2 (algolia_object_from_course_passes_through
                    published_enrollable_marketable 7 ALGOLIA_FIELDS catalogue
                    titled_document titled_object Hdoc Hrun "internal_notes")).
    apply (bool_decide_unpack _). by vm_compute.
Defined.

Lemma algolia_object_from_course_derived_witness :
  field titled_object "language" = VNone
  ∧ field titled_object "availability" = VList [VStr "Available Now"].
Proof.
  assert (Hrun : (_algolia_object_from_course published_enrollable_marketable
                    7 ALGOLIA_FIELDS catalogue).1 = Ok titled_object)
    by (by vm_compute).
  destruct (algolia_object_from_course_derived
              published_enrollable_marketable 7 ALGOLIA_FIELDS catalogue
              titled_object Hrun)
    as (language & availability & ? & ? & ? & ? & ? & ? & ? & ?
        & Hlanguage & Havailability & _ & _ & _ & _ & _ & _ & _ & _ & Hfield).
  vm_compute in Hlanguage, Havailability.
  injection Hlanguage as <-. injection Havailability as <-.
  split.
  - rewrite (Hfield "language") by (apply (bool_decide_unpack _); by vm_compute).
    reflexivity.
  - rewrite (Hfield "availability") by (apply (bool_decide_unpack _); by vm_compute).
    reflexivity.
Defined.

Lemma algolia_object_from_course_content_only_witness :
  (_algolia_object_from_course published_enrollable_marketable
     7 ALGOLIA_FIELDS catalogue).1
  = (_algolia_object_from_course published_enrollable_marketable
       0 ALGOLIA_FIELDS
       (<[3 := numeric_subject]> {[ 0 := titled_course ]})).1.
Proof.
  apply (algolia_object_from_course_content_only
           published_enrollable_marketable 7 0 ALGOLIA_FIELDS).
  by vm_compute.
Defined.

(** ** A batch of courses *)

Lemma store_fresh_subseteq (h : gmap loc value) (v : value) :
  h ⊆ <[fresh (dom h) := v]> h.
Proof. apply insert_subseteq, not_elem_of_dom, is_fresh. Qed.

Lemma algolia_object_from_course_grows
    (is_course_run_active : value → result bool)
    (course : loc) (algolia_fields : list string) (h : gmap loc value) :
  h ⊆ (_algolia_object_from_course is_course_run_active
         course algolia_fields h).2.
Proof.
  rewrite algolia_object_from_course_run.
  destruct (searchable_course_of _ _); cbn [snd].
  - rewrite insert_insert_eq. apply store_fresh_subseteq.
  - apply store_fresh_subseteq.
Qed.

Lemma lookup_total_weaken (h h' : gmap loc value) (l : loc) :
  h ⊆ h' → l ∈ dom h → h' !!! l = h !!! l.
Proof.
  intros Hsub [v Hl]%elem_of_dom.
  rewrite (lookup_total_correct _ _ _ Hl).
  apply lookup_total_correct. by eapply lookup_weaken.
Qed.

Lemma st_map_comp_project (is_course_run_active : value → result bool)
    (algolia_fields : list string) (h : gmap loc value) (courses : list loc) :
  Forall (λ course, course ∈ dom h) courses →
  ∀ h', h ⊆ h' →
    let run := st_map_comp
                 (λ course, _algolia_object_from_course is_course_run_active
                              course algolia_fields) courses h' in
    run.1 = map_comp
              (λ course, (_algolia_object_from_course is_course_run_active
                            course algolia_fields h).1) courses
    ∧ h' ⊆ run.2.
Proof.
  induction 1 as [|course courses Hcourse _ IH]; intros h' Hsub; [done|].
  cbn [st_map_comp map_comp]. cbv zeta. rewrite St_bind_run.
  pose proof (algolia_object_from_course_grows is_course_run_active
                course algolia_fields h') as Hgrows.
  assert (Hsame : (_algolia_object_from_course is_course_run_active
                     course algolia_fields h').1
                  = (_algolia_object_from_course is_course_run_active
                       course algolia_fields h).1).
  { rewrite !algolia_object_from_course_result.
    by rewrite (lookup_total_weaken h h' course Hsub Hcourse). }
  destruct (_algolia_object_from_course is_course_run_active
              course algolia_fields h') as [[obj|e] h1].
  - cbn [fst snd] in *. rewrite <- Hsame. cbn [mbind result_bind].
    destruct (IH h1) as [Hrest Hsub1]; [by etrans|].
    rewrite St_bind_run. rewrite <- Hrest.
    destruct (st_map_comp _ courses h1) as [[objs|e] h2]; cbn [fst snd] in *.
    + split; [done | by etrans].
    + split; [done | by etrans].
  - cbn [fst snd] in *. by rewrite <- Hsame.
Qed.

Section batch.

Variable is_course_run_active : value → result bool.

Local Abbreviation project := (_algolia_object_from_course is_course_run_active).
Local Abbreviation create := (create_algolia_objects_from_courses is_course_run_active).

(** X14.  [create_algolia_objects_from_courses] returns, in the order of
    the courses, the object each course gives on its own, and raises what
    the first failing course raises; the copies it makes do not show in
    the outcome of a later course, and every object of the store is after
    the call as it was before. *)
Theorem create_algolia_objects_from_courses_per_course
    (courses : list loc) (algolia_fields : option (list string))
    (h : gmap loc value) :
  Forall (λ course, course ∈ dom h) courses →
  let run := create courses algolia_fields h in
  run.1 = map_comp (λ course, (project course (default [] algolia_fields) h).1)
            courses
  ∧ h ⊆ run.2.
Proof.
  intros Hcourses. unfold create_algolia_objects_from_courses.
  by apply st_map_comp_project.
Qed.

(** X15.  With no field list, [None] or the empty list, a batch that
    returns gives one empty mapping for each course. *)
Theorem create_algolia_objects_from_courses_without_fields
    (courses : list loc) (algolia_fields : option (list string))
    (h : gmap loc value) (objects : list value) :
  default [] algolia_fields = [] →
  (create courses algolia_fields h).1 = Ok objects →
  objects = replicate (length courses) (VDict []).
Proof.
  unfold create_algolia_objects_from_courses. intros ->.
  revert h objects. induction courses as [|course courses IH]; intros h objects.
  - by intros [= <-].
  - cbn [st_map_comp]. rewrite St_bind_run, algolia_object_from_course_run.
    destruct (searchable_course_of _ _) as [searchable|]; [|done].
    rewrite St_bind_run.
    match goal with
    | |- context [st_map_comp ?f courses ?h1] =>
        specialize (IH h1); destruct (st_map_comp f courses h1) as [[rest|] h2]
    end; [|done].
    intros [= <-]. cbn [length replicate]. by rewrite (IH rest eq_refl).
Qed.

End batch.

Lemma create_algolia_objects_from_courses_per_course_witness :
  (create_algolia_objects_from_courses published_enrollable_marketable
     [1; 0; 1] (Some ALGOLIA_FIELDS) two_courses).1
  = map_comp
      (λ course, (_algolia_object_from_course published_enrollable_marketable
                    course ALGOLIA_FIELDS two_courses).1)
      [1; 0; 1].
Proof.
  apply (create_algolia_objects_from_courses_per_course
           published_enrollable_marketable [1; 0; 1] (Some ALGOLIA_FIELDS)
           two_courses).
  repeat constructor; apply (bool_decide_unpack _); by vm_compute.
Defined.

Lemma create_algolia_objects_from_courses_without_fields_witness :
  [VDict []; VDict []] = replicate 2 (VDict []).
Proof.
  apply (create_algolia_objects_from_courses_without_fields
           published_enrollable_marketable [7; 7] None catalogue).
  - reflexivity.
  - by vm_compute.
Defined.

(** X16.  Every object carries each of the seven list-valued derived
    fields that is on the field list, as a list: a course without
    partners, programs, subjects or skills gets the empty list, not a
    missing field. *)
Theorem algolia_object_from_course_listed_fields
    (is_course_run_active : value → result bool)
    (course : loc) (algolia_fields : list string) (h : gmap loc value)
    (obj : value) (f : string) :
  (_algolia_object_from_course is_course_run_active
     course algolia_fields h).1 = Ok obj →
  f ∈ algolia_fields → f ∈ LISTED_FIELDS →
  ∃ items, field obj f = VList items.
Proof.
  rewrite algolia_object_from_course_result.
  intros (searchable & Hs & ->)%projection_of_Ok Hin Hlisted.
  apply searchable_course_of_Ok in Hs
    as (doc & language & availability & partners & programs & program_titles
        & subjects & card_image_url & advertised_course_run & skill_names
        & skills & _ & Hs).
  destruct Hs as (_ & _ & _ & _ & _ & _ & _ & _ & _ & _ & ->).
  rewrite pick_field, bool_decide_eq_true_2 by done.
  rewrite field_dict_update_derived by apply derived_entries_keys.
  unfold LISTED_FIELDS in Hlisted.
  repeat (apply elem_of_cons in Hlisted as [->|Hlisted]; [by eexists|]).
  by apply elem_of_nil in Hlisted.
Qed.

Lemma algolia_object_from_course_listed_fields_witness :
  ∃ items, field titled_object "subjects" = VList items.
Proof.
  apply (algolia_object_from_course_listed_fields
           published_enrollable_marketable 7 ALGOLIA_FIELDS catalogue).
  - by vm_compute.
  - apply (bool_decide_unpack _). by vm_compute.
  - apply (bool_decide_unpack _). by vm_compute.
Defined.

(** ** The partition and the order of the records *)


